(** * lab_6_pipeline/pipeline.py: corpus intake, token and sentence model

    A shallow embedding of [src/lab_6_pipeline/pipeline.py].  Python strings
    are sequences of code points; the parts of the Unicode character database
    that the interpreter consults for code points above 127 are an interface
    ([UnicodeData]), and so are the [core_utils] functions the module imports
    ([CoreUtils]).  Methods that mutate [self] or may raise are written in a
    state-and-exception monad. *)

From Stdlib Require Import ZArith List String Ascii Bool Lia Permutation Sorted.
From stdpp Require Import base option list strings gmap sorting.

Local Open Scope Z_scope.

(** ** Exceptions and the monad of methods *)

(** The four exception classes the module declares (lines 14-35), the
    built-in exceptions the interpreter raises on its own, [OSError] for an
    error of the operating system that a [pathlib] call lets through (the
    built-in FileNotFoundError of a dangling link, PermissionError, ...: the
    class named, which is never one of the four above), and [Other] for an
    exception raised inside a [core_utils] collaborator. *)
Inductive exn : Type :=
  | FileNotFoundError
  | NotADirectoryError
  | InconsistentDatasetError
  | EmptyDirectoryError
  | ValueError
  | NameError (name : string)
  | AttributeError (name : string)
  | OSError (name : string)
  | Other (what : string).

Global Instance exn_eq_dec : EqDecision exn.
Proof. solve_decision. Defined.

Inductive result (A : Type) : Type :=
  | Ok (a : A)
  | Raise (e : exn).
Arguments Ok {A} a.
Arguments Raise {A} e.

Global Instance result_ret : MRet result := λ A a, Ok a.
Global Instance result_fmap : FMap result := λ A B f r,
  match r with Ok a => Ok (f a) | Raise e => Raise e end.
Global Instance result_bind : MBind result := λ A B f r,
  match r with Ok a => f a | Raise e => Raise e end.

(** A method body: it reads and writes the object it runs on and either
    returns or raises; attribute writes made before a raise stay. *)
Definition M (S A : Type) : Type := S → result A * S.

Global Instance M_ret {S} : MRet (M S) := λ A a s, (Ok a, s).
Global Instance M_bind {S} : MBind (M S) := λ A B f m s,
  match m s with
  | (Ok a, s') => f a s'
  | (Raise e, s') => (Raise e, s')
  end.

Definition raise {S A} (e : exn) : M S A := λ s, (Raise e, s).
Definition lift {S A} (r : result A) : M S A := λ s, (r, s).
Definition get {S} : M S S := λ s, (Ok s, s).
Definition modify {S} (f : S → S) : M S unit := λ s, (Ok tt, f s).

(** [for x in l: body] *)
Fixpoint for_ {S A} (l : list A) (body : A → M S unit) : M S unit :=
  match l with
  | [] => mret tt
  | x :: rest => body x ;; for_ rest body
  end.

(** A [for] loop that threads a local variable through its iterations. *)
Fixpoint for_acc {S A B} (l : list A) (acc : B) (body : B → A → M S B) : M S B :=
  match l with
  | [] => mret acc
  | x :: rest => acc' ← body acc x; for_acc rest acc' body
  end.

(** ** Python strings *)

(** A code point, and a string as the list of its code points. *)
Abbreviation char := Z (only parsing).
Abbreviation str := (list Z) (only parsing).

(** An ASCII literal as a Python string. *)
Definition lit (s : string) : str :=
  map (λ a, Z.of_N (N_of_ascii a)) (list_ascii_of_string s).

(** What CPython takes from the Unicode character database for code points
    above 127: [str.isspace], [str.isalnum], the decimal value of a digit,
    and [str.lower] of a string that is not pure ASCII (full case mapping,
    context dependent for the final sigma, so a function of the string). *)
Class UnicodeData : Type := {
  uni_isspace : char → bool;
  uni_isalnum : char → bool;
  uni_todecimal : char → option Z;
  uni_lower : str → str;
}.

(** The database cut down to ASCII: no code point above 127 is a space, a
    letter or a digit, and lowering leaves such strings alone.  It agrees with
    every database on pure ASCII strings. *)
Definition ascii_only : UnicodeData := {|
  uni_isspace := λ _, false;
  uni_isalnum := λ _, false;
  uni_todecimal := λ _, None;
  uni_lower := λ s, s;
|}.

Module Py.
Section builtins.
Context `{UnicodeData}.

Definition is_ascii (c : char) : bool := bool_decide (0 ≤ c < 128).

(** [str.isspace] of one code point; the ASCII part is the interpreter's
    table: 0x09-0x0D, 0x1C-0x1F and 0x20. *)
Definition isspace (c : char) : bool :=
  if is_ascii c
  then bool_decide (9 ≤ c ≤ 13) || bool_decide (28 ≤ c ≤ 31) || bool_decide (c = 32)
  else uni_isspace c.

Definition isalnum (c : char) : bool :=
  if is_ascii c
  then bool_decide (48 ≤ c ≤ 57) || bool_decide (65 ≤ c ≤ 90) || bool_decide (97 ≤ c ≤ 122)
  else uni_isalnum c.

(** [str.lower]: pure ASCII strings take the byte-wise fast path. *)
Definition ascii_lower (c : char) : char :=
  if bool_decide (65 ≤ c ≤ 90) then c + 32 else c.

Definition lower (s : str) : str :=
  if forallb is_ascii s then map ascii_lower s else uni_lower s.

Fixpoint drop_while (p : char → bool) (s : str) : str :=
  match s with
  | [] => []
  | c :: rest => if p c then drop_while p rest else s
  end.

Definition strip_with (p : char → bool) (s : str) : str :=
  reverse (drop_while p (reverse (drop_while p s))).

(** [s.strip()] *)
Definition strip (s : str) : str := strip_with isspace s.

(** [s.split()]: the maximal runs of non-space characters.  [word] holds
    the run being read, last character first. *)
Fixpoint split_from (word : str) (s : str) : list str :=
  match s with
  | [] => match word with [] => [] | _ => [reverse word] end
  | c :: rest =>
      if isspace c
      then match word with
           | [] => split_from [] rest
           | _ => reverse word :: split_from [] rest
           end
      else split_from (c :: word) rest
  end.

Definition split (s : str) : list str := split_from [] s.

(** [sep.join(parts)] *)
Fixpoint join (sep : str) (parts : list str) : str :=
  match parts with
  | [] => []
  | [p] => p
  | p :: rest => p ++ sep ++ join sep rest
  end.

(** [s.index(c)] for a one-character needle. *)
Fixpoint index (c : char) (s : str) : result nat :=
  match s with
  | [] => Raise ValueError
  | x :: rest => if bool_decide (x = c) then Ok 0%nat else S <$> index c rest
  end.

(** [int(s)], base ten.  Spaces around the number are dropped (for the
    ASCII range the C-locale ones, 0x09-0x0D and 0x20), one sign is
    allowed, and the digits may be grouped by single underscores.  The
    interpreter's cap on the number of digits (4300 unless reconfigured) is
    far above the length of a file name and is left out. *)
Definition int_isspace (c : char) : bool :=
  if is_ascii c
  then bool_decide (9 ≤ c ≤ 13) || bool_decide (c = 32)
  else uni_isspace c.

Definition int_digit (c : char) : option Z :=
  if is_ascii c
  then if bool_decide (48 ≤ c ≤ 57) then Some (c - 48) else None
  else uni_todecimal c.

Fixpoint int_digits (acc : Z) (after_digit : bool) (s : str) : option Z :=
  match s with
  | [] => if after_digit then Some acc else None
  | c :: rest =>
      if bool_decide (c = 95)
      then if after_digit then int_digits acc false rest else None
      else match int_digit c with
           | Some d => int_digits (10 * acc + d) true rest
           | None => None
           end
  end.

Definition int (s : str) : result Z :=
  let body := strip_with int_isspace s in
  let '(sign, digits) :=
    match body with
    | 43 :: rest => (1, rest)
    | 45 :: rest => (-1, rest)
    | _ => (1, body)
    end in
  match int_digits 0 false digits with
  | Some v => Ok (sign * v)
  | None => Raise ValueError
  end.

(** [sorted(l)] on integers and [list(range(lo, hi))]. *)
Definition sorted (l : list Z) : list Z := merge_sort Z.le l.

Definition range (lo hi : Z) : list Z := seqZ lo (hi - lo).

(** [re.sub(pattern, repl, s)] for a pattern that is one character class:
    every match is one character long, so the scan replaces the matching
    characters from left to right. *)
Inductive category : Type := Word | Space.   (* \w and \s *)
Inductive char_class : Type := NegatedSet (items : list category).

Definition in_category (k : category) (c : char) : bool :=
  match k with
  | Word => isalnum c || bool_decide (c = 95)
  | Space => isspace c
  end.

Definition class_matches (p : char_class) (c : char) : bool :=
  match p with
  | NegatedSet items => negb (existsb (λ k, in_category k c) items)
  end.

Fixpoint re_sub (p : char_class) (repl : str) (s : str) : str :=
  match s with
  | [] => []
  | c :: rest =>
      if class_matches p c then repl ++ re_sub p repl rest
      else c :: re_sub p repl rest
  end.

End builtins.
End Py.

(** ** The file system as pathlib presents it *)

Abbreviation Path := (list Z) (only parsing).

(** One directory entry: its name, and what [stat()] does on it: it
    reports an [st_size], or it raises an error of the operating system, as
    on a symbolic link whose target is gone, which the directory still lists. *)
Record dirent : Type := { d_name : str; d_stat : string + Z }.

(** What a path leads to.  The entries of a directory are listed in the
    order the file system yields them. *)
Inductive node : Type :=
  | Missing
  | NotDir
  | Dir (entries : list dirent).

Definition filesystem : Type := Path → node.

Module Pathlib.

Definition exists_ (fs : filesystem) (p : Path) : bool :=
  match fs p with Missing => false | _ => true end.

Definition is_dir (fs : filesystem) (p : Path) : bool :=
  match fs p with Dir _ => true | _ => false end.

Definition iterdir (fs : filesystem) (p : Path) : list dirent :=
  match fs p with Dir entries => entries | _ => [] end.

(** [file.stat().st_size] *)
Definition st_size (file : dirent) : result Z :=
  match d_stat file with
  | inl what => Raise (OSError what)
  | inr size => Ok size
  end.

(** [p / name] *)
Definition joinpath (p : Path) (name : str) : Path := p ++ lit "/" ++ name.

(** Shell-style patterns of literal characters and [*]. *)
Inductive glob_item : Type := Star | Lit (c : char).

Definition glob_pattern (pattern : string) : list glob_item :=
  map (λ c, if bool_decide (c = 42) then Star else Lit c) (lit pattern).

Fixpoint glob_match (p : list glob_item) (name : str) : bool :=
  match p with
  | [] => match name with [] => true | _ => false end
  | Lit c :: p' =>
      match name with
      | x :: rest => bool_decide (x = c) && glob_match p' rest
      | [] => false
      end
  | Star :: p' =>
      (fix skip (name : str) : bool :=
         glob_match p' name ||
         match name with [] => false | _ :: rest => skip rest end) name
  end.

(** [p.glob(pattern)] for a pattern without a directory part: the entries
    of [p] whose name matches, in listing order. *)
Definition glob (fs : filesystem) (p : Path) (pattern : string) : list dirent :=
  filter (λ file, glob_match (glob_pattern pattern) (d_name file) = true)
         (iterdir fs p).

End Pathlib.

(** ** The collaborators from [core_utils] *)

(** [core_utils] is imported, not defined, by the module: its articles and
    the functions the module calls are an interface.  A call either returns
    a value or raises inside [core_utils]; such an exception is of none of
    the classes this module declares, and only its name is kept.
    [split_by_sentence] is the segmentation function of
    [core_utils.article.article]. *)
Class CoreUtils : Type := {
  Article : Type;
  get_article_id_from_filepath : Path → string + Z;
  from_raw : Path → string + Article;
  split_by_sentence : str → list str;
}.

(** The outcome of a collaborator call, seen from the caller. *)
Definition call {S A} (r : string + A) : M S A :=
  match r with
  | inl what => raise (Other what)
  | inr a => mret a
  end.

(** ** CorpusManager (lines 39-95) *)

Module CorpusManager.
Section methods.
Context `{UnicodeData} `{CoreUtils}.
Variable fs : filesystem.

(** The instance attributes, and a record of the [from_raw] calls made so
    far (not an attribute: it only lets statements speak about loading). *)
Record t : Type := {
  path_to_data : Path;
  _storage : gmap Z Article;
  from_raw_calls : list Path;
}.

Definition when_ (b : bool) (m : M t unit) : M t unit :=
  if b then m else mret tt.

(** [any(it)] over path objects, which are all truthy. *)
Definition any_path (it : list dirent) : bool := existsb (λ _, true) it.

(** [int(file.name[:file.name.index('_')])] (line 78) *)
Definition id_of_name (name : str) : result Z :=
  k ← Py.index 95 name; Py.int (take k name).

Definition _validate_dataset : M t unit :=
  self ← get;
  when_ (negb (Pathlib.exists_ fs (path_to_data self)))
    (raise FileNotFoundError);;
  when_ (negb (Pathlib.is_dir fs (path_to_data self)))
    (raise NotADirectoryError);;
  when_ (negb (any_path (Pathlib.iterdir fs (path_to_data self))))
    (raise EmptyDirectoryError);;
  let raw_files := Pathlib.glob fs (path_to_data self) "*_raw.txt" in
  for_ raw_files (λ file,
    size ← lift (Pathlib.st_size file);
    when_ (bool_decide (size = 0)) (raise InconsistentDatasetError));;
  list_of_ids ← for_acc raw_files [] (λ list_of_ids file,
    i ← lift (id_of_name (d_name file));
    mret (list_of_ids ++ [i]));
  when_ (bool_decide (Py.sorted list_of_ids
                      ≠ Py.range 1 (Z.of_nat (length list_of_ids) + 1)))
    (raise InconsistentDatasetError).

Definition call_from_raw (p : Path) : M t Article :=
  modify (λ self, {| path_to_data := path_to_data self;
                     _storage := _storage self;
                     from_raw_calls := from_raw_calls self ++ [p] |});;
  call (from_raw p).

Definition storage_setitem (k : Z) (v : Article) : M t unit :=
  modify (λ self, {| path_to_data := path_to_data self;
                     _storage := <[k := v]> (_storage self);
                     from_raw_calls := from_raw_calls self |}).

Definition _scan_dataset : M t unit :=
  self ← get;
  let raw_files := Pathlib.glob fs (path_to_data self) "*_raw.txt" in
  for_ raw_files (λ file,
    let path := Pathlib.joinpath (path_to_data self) (d_name file) in
    article_id ← call (get_article_id_from_filepath path);
    article ← call_from_raw path;
    storage_setitem article_id article).

Definition get_articles : M t (gmap Z Article) :=
  self ← get; mret (_storage self).

Definition __init__ (path_to_raw_txt_data : Path) : M t unit :=
  modify (λ self, {| path_to_data := path_to_raw_txt_data;
                     _storage := _storage self;
                     from_raw_calls := from_raw_calls self |});;
  modify (λ self, {| path_to_data := path_to_data self;
                     _storage := ∅;
                     from_raw_calls := from_raw_calls self |});;
  _validate_dataset;;
  _scan_dataset.

(** [CorpusManager(path)]: the outcome of the constructor call and the
    object as [__init__] left it. *)
Definition new (path_to_raw_txt_data : Path) : result unit * t :=
  __init__ path_to_raw_txt_data
    {| path_to_data := []; _storage := ∅; from_raw_calls := [] |}.

(** The numeric IDs of a list of raw files, in listing order. *)
Fixpoint raw_file_ids (raw_files : list dirent) : result (list Z) :=
  match raw_files with
  | [] => Ok []
  | file :: rest =>
      i ← id_of_name (d_name file);
      ids ← raw_file_ids rest;
      mret (i :: ids)
  end.

End methods.
End CorpusManager.

(** ** MorphologicalTokenDTO (lines 98-107) *)

(** A method whose body is only its docstring returns Python's [None]; the
    embedding writes such a result as [option] with [None] for it. *)

Module MorphologicalTokenDTO.

(** An instance is its attribute dictionary. *)
Record t : Type := { __dict__ : gmap string str }.

(** [__init__] has no statement besides the docstring: it assigns nothing. *)
Definition __init__ (lemma pos tags : str) : M t unit := mret tt.

(** [MorphologicalTokenDTO(lemma, pos, tags)] *)
Definition new (lemma pos tags : str) : t :=
  (__init__ lemma pos tags {| __dict__ := ∅ |}).2.

(** [self.name] *)
Definition getattr (self : t) (name : string) : result str :=
  match __dict__ self !! name with
  | Some v => Ok v
  | None => Raise (AttributeError name)
  end.

End MorphologicalTokenDTO.

(** ** ConlluToken (lines 109-141) *)

Module ConlluToken.
Section methods.
Context `{UnicodeData}.

Record t : Type := { _text : str }.

Definition __init__ (text : str) : t := {| _text := text |}.

Definition set_morphological_parameters
    (parameters : MorphologicalTokenDTO.t) : M t unit :=
  mret tt.

Definition get_morphological_parameters : M t (option MorphologicalTokenDTO.t) :=
  mret None.

Definition get_conllu_text (include_morphological_tags : bool) : M t (option str) :=
  mret None.

Definition get_cleaned (self : t) : str :=
  let text := Py.lower (_text self) in
  let cleaned_text := Py.re_sub (Py.NegatedSet [Py.Word; Py.Space]) [] text in
  cleaned_text.

End methods.
End ConlluToken.

(** ** ConlluSentence (lines 144-177) *)

Module ConlluSentence.
Section methods.
Context `{UnicodeData}.

Record t : Type := {
  _position : Z;
  _text : str;
  _tokens : list ConlluToken.t;
}.

Definition __init__ (position : Z) (text : str) (tokens : list ConlluToken.t) : t :=
  {| _position := position; _text := text; _tokens := tokens |}.

Definition get_conllu_text (self : t) (include_morphological_tags : bool) : option str :=
  None.

(** A string is truthy when it is not empty. *)
Definition truthy (s : str) : bool :=
  match s with [] => false | _ => true end.

Definition get_cleaned_sentence (self : t) : str :=
  let sentence :=
    fold_left (λ sentence token,
      let cleaned_token := ConlluToken.get_cleaned token in
      if truthy cleaned_token
      then sentence ++ (cleaned_token ++ lit " ")
      else sentence) (_tokens self) [] in
  let sentence := Py.strip sentence in
  sentence.

Definition get_tokens (self : t) : option (list ConlluToken.t) := None.

End methods.
End ConlluSentence.

(** ** The tag converters (lines 180-209) *)

Module MystemTagConverter.

Definition convert_morphological_tags {Self} (self : Self) (tags : str) : option str :=
  None.

Definition convert_pos {Self} (self : Self) (tags : str) : option str := None.

End MystemTagConverter.

Module OpenCorporaTagConverter.

(** [Tag] stands for [OpencorporaTagProtocol]. *)
Definition convert_pos {Self Tag} (self : Self) (tags : Tag) : option str := None.

Definition convert_morphological_tags {Self Tag} (self : Self) (tags : Tag) : option str :=
  None.

End OpenCorporaTagConverter.

(** ** MorphologicalAnalysisPipeline (lines 212-241) *)

(** The names the module's own statements bind at top level: its imports
    (lines 4-11), its classes and [main]. *)
Definition module_globals : list string :=
  [ "Path"; "List"; "re";
    "SentenceProtocol"; "get_article_id_from_filepath";
    "from_raw"; "to_cleaned"; "to_conllu";
    "OpencorporaTagProtocol"; "TagConverter"; "ASSETS_PATH";
    "FileNotFoundError"; "NotADirectoryError"; "InconsistentDatasetError";
    "EmptyDirectoryError"; "CorpusManager"; "MorphologicalTokenDTO";
    "ConlluToken"; "ConlluSentence"; "MystemTagConverter";
    "OpenCorporaTagConverter"; "MorphologicalAnalysisPipeline";
    "AdvancedMorphologicalAnalysisPipeline"; "main" ]%string.

(** Reading a global name inside a function: the name is looked up when the
    line runs, and a name that no statement of the module has bound (and that
    is no built-in) raises [NameError].  [value] is what the name would
    denote once bound. *)
Definition load_global {A} (globals : list string) (name : string) (value : A) : result A :=
  if bool_decide (name ∈ globals) then Ok value else Raise (NameError name).

(** [enumerate(l)] *)
Definition enumerate {A} (l : list A) : list (Z * A) :=
  imap (λ i x, (Z.of_nat i, x)) l.

Module MorphologicalAnalysisPipeline.
Section methods.
Context `{UnicodeData} `{CoreUtils}.

(** [_process] run in a module whose top-level names are [globals]. *)
Definition _process_in (globals : list string) (text : str) : result (list ConlluSentence.t) :=
  let conllu_sentences := [] in
  segment ← load_global globals "split_by_sentence" split_by_sentence;
  let sentences := segment text in
  mret (fold_left (λ conllu_sentences '(position, sentence),
          let tokens :=
            map (λ word, ConlluToken.__init__ (Py.strip word)) (Py.split sentence) in
          conllu_sentences ++ [ConlluSentence.__init__ position sentence tokens])
        (enumerate sentences) conllu_sentences).

Definition _process (text : str) : result (list ConlluSentence.t) :=
  _process_in module_globals text.

End methods.
End MorphologicalAnalysisPipeline.

(** Two listings of one directory that differ only in order. *)
Inductive same_listing : node → node → Prop :=
  | same_missing : same_listing Missing Missing
  | same_notdir : same_listing NotDir NotDir
  | same_dir d d' : d ≡ₚ d' → same_listing (Dir d) (Dir d').

(** ** What validation amounts to *)

Section outcome.
Context `{UnicodeData}.

Definition is_raw_name (name : str) : bool :=
  Pathlib.glob_match (Pathlib.glob_pattern "*_raw.txt") name.

(** The outcome of the loop over the sizes (lines 72-74): the first raw
    file, in listing order, on which [stat()] raises or whose size is 0
    decides. *)
Fixpoint sizes_outcome (raw_files : list dirent) : result unit :=
  match raw_files with
  | [] => Ok tt
  | file :: rest =>
      match Pathlib.st_size file with
      | Raise e => Raise e
      | Ok size =>
          if bool_decide (size = 0) then Raise InconsistentDatasetError
          else sizes_outcome rest
      end
  end.

(** The outcome of [_validate_dataset] as a function of what the dataset
    path leads to; [validate_dataset_run] below proves that the method
    computes it. *)
Definition validation_outcome (n : node) : result unit :=
  match n with
  | Missing => Raise FileNotFoundError
  | NotDir => Raise NotADirectoryError
  | Dir [] => Raise EmptyDirectoryError
  | Dir entries =>
      let raw_files := filter (λ file, is_raw_name (d_name file) = true) entries in
      match sizes_outcome raw_files with
      | Raise e => Raise e
      | Ok _ =>
          match CorpusManager.raw_file_ids raw_files with
          | Raise e => Raise e
          | Ok ids =>
              if bool_decide (ids ≡ₚ seqZ 1 (Z.of_nat (length ids)))
              then Ok tt else Raise InconsistentDatasetError
          end
      end
  end.

End outcome.

(** The object as [__init__] leaves it before validation starts. *)
Definition fresh `{CoreUtils} (path : Path) : CorpusManager.t :=
  {| CorpusManager.path_to_data := path;
     CorpusManager._storage := ∅;
     CorpusManager.from_raw_calls := [] |}.

(** A stand-in for [core_utils] on which the definitions can be run:
    articles are their raw text, a file reads as its own path, the article
    ID is the length of the path, and a text is one sentence. *)
Definition stand_in : CoreUtils := {|
  Article := str;
  get_article_id_from_filepath := λ p, inr (Z.of_nat (length p));
  from_raw := λ p, inr p;
  split_by_sentence := λ text, [text];
|}.

(** [stat()] returns on the entry. *)
Definition stat_returns (file : dirent) : Prop :=
  ∃ size, Pathlib.st_size file = Ok size.





(** A directory given by the names and sizes of its entries, each of which
    [stat()] can read, wherever it is mounted. *)
Definition directory (entries : list (string * Z)) : filesystem :=
  λ _, Dir (map (λ '(name, size), {| d_name := lit name; d_stat := inr size |}) entries).

(** ** Cleaning, in the words of the specification *)

Section cleaning.
Context `{UnicodeData}.

(** A word character: a Unicode letter or digit, or the underscore. *)
Definition is_word_char (c : char) : bool := Py.isalnum c || bool_decide (c = 95).

(** Lowercase, then keep the word characters and the whitespace. *)
Definition clean (text : str) : str :=
  filter (λ c, is_word_char c || Py.isspace c = true) (Py.lower text).

End cleaning.

(** ** The cleaned sentence, in the words of the specification *)

Section cleaned_sentence.
Context `{UnicodeData}.

(** The non-empty cleaned forms of the tokens, in token order. *)
Definition cleaned_words (tokens : list ConlluToken.t) : list (list Z) :=
  filter (λ w, w ≠ []) (map ConlluToken.get_cleaned tokens).

(** A string that neither starts nor ends with whitespace. *)
Definition no_outer_space (s : str) : Prop :=
  (∀ c, head s = Some c → Py.isspace c = false) ∧
  (∀ c, last s = Some c → Py.isspace c = false).

End cleaned_sentence.

(** ** [run] and [main] (lines 217-241 and 265-271) *)

(** What [run] and [main] use of [core_utils] besides: the [text] of an
    article, its [set_conllu_sentences], the writer [to_cleaned] and the
    constant [ASSETS_PATH].  Setting the sentences mutates the article; here
    it returns the article as it is afterwards. *)
Class ArticleIO `{CoreUtils} : Type := {
  text : Article → list Z;
  set_conllu_sentences : Article → list ConlluSentence.t → Article;
  to_cleaned : Article → string + unit;
  ASSETS_PATH : list Z;
}.

(** The rest of the class [MorphologicalAnalysisPipeline]. *)
Module PipelineRun.
Section methods.
Context `{UnicodeData} `{CoreUtils} `{!ArticleIO}.

(** The pipeline object, and a record of the [to_cleaned] calls made so far
    (not an attribute: it only lets statements speak about writing). *)
Record t : Type := {
  _corpus : CorpusManager.t;
  to_cleaned_calls : list Article;
}.

(** [MorphologicalAnalysisPipeline(corpus_manager)] *)
Definition __init__ (corpus_manager : CorpusManager.t) : t :=
  {| _corpus := corpus_manager; to_cleaned_calls := [] |}.

(** [article.set_conllu_sentences(sentences)]: the article mutated is the
    object the mapping of the corpus holds under [key]. *)
Definition article_set_sentences (key : Z) (article : Article)
    (sentences : list ConlluSentence.t) : M t Article :=
  let article := set_conllu_sentences article sentences in
  modify (λ self,
    {| _corpus :=
         {| CorpusManager.path_to_data := CorpusManager.path_to_data (_corpus self);
            CorpusManager._storage := <[key := article]> (CorpusManager._storage (_corpus self));
            CorpusManager.from_raw_calls := CorpusManager.from_raw_calls (_corpus self) |};
       to_cleaned_calls := to_cleaned_calls self |});;
  mret article.

Definition call_to_cleaned (article : Article) : M t unit :=
  modify (λ self, {| _corpus := _corpus self;
                     to_cleaned_calls := to_cleaned_calls self ++ [article] |});;
  call (to_cleaned article).

(** [run] in a module whose top-level names are [globals].  [dict_order]
    is the order in which a mapping yields its items: Python keeps the
    order of insertion, which the finite map does not record, so the order is
    left open and statements hold for each one. *)
Definition run_in (globals : list string)
    (dict_order : gmap Z Article → list (Z * Article)) : M t unit :=
  self ← get;
  articles ← lift (CorpusManager.get_articles (_corpus self)).1;
  for_ (dict_order articles) (λ '(key, article),
    sentences ← lift (MorphologicalAnalysisPipeline._process_in globals (text article));
    article ← article_set_sentences key article sentences;
    call_to_cleaned article).

Definition run (dict_order : gmap Z Article → list (Z * Article)) : M t unit :=
  run_in module_globals dict_order.

End methods.
End PipelineRun.

Section entry_point.
Context `{UnicodeData} `{CoreUtils} `{!ArticleIO}.

(** [main()], on a file system.  The result is the outcome of the call and,
    once the pipeline object exists, the object as [run] left it. *)
Definition main (fs : filesystem)
    (dict_order : gmap Z Article → list (Z * Article)) : result unit * option PipelineRun.t :=
  match CorpusManager.new fs ASSETS_PATH with
  | (Raise e, _) => (Raise e, None)
  | (Ok _, corpus_manager) =>
      let pipeline := PipelineRun.__init__ corpus_manager in
      let '(outcome, pipeline) := PipelineRun.run dict_order pipeline in
      (outcome, Some pipeline)
  end.

End entry_point.

(** ** Loading, as a function of the raw files *)

Section loading.
Context `{CoreUtils}.

(** The ID and the article the collaborators give for each raw file of the
    directory [dir], in listing order, or the name of the first exception
    one of them raises. *)
Fixpoint loaded (dir : list Z) (raw_files : list dirent) : string + list (Z * Article) :=
  match raw_files with
  | [] => inr []
  | file :: rest =>
      let path := Pathlib.joinpath dir (d_name file) in
      match get_article_id_from_filepath path with
      | inl what => inl what
      | inr article_id =>
          match from_raw path with
          | inl what => inl what
          | inr article =>
              match loaded dir rest with
              | inl what => inl what
              | inr pairs => inr ((article_id, article) :: pairs)
              end
          end
      end
  end.

End loading.

Section processed.
Context `{UnicodeData} `{CoreUtils} `{!ArticleIO}.

(** The sentences of a text: one for each segment, numbered from 0, with
    the whitespace-split fragments of the segment as tokens. *)
Definition sentences_of (text : list Z) : list ConlluSentence.t :=
  imap (λ i sentence,
      ConlluSentence.__init__ (Z.of_nat i) sentence
        (map ConlluToken.__init__ (Py.split sentence)))
    (split_by_sentence text).

(** An article with the sentences of its text set. *)
Definition processed (article : Article) : Article :=
  set_conllu_sentences article (sentences_of (text article)).

End processed.

(** The characters that cleaning keeps. *)
Definition keep `{UnicodeData} (c : Z) : bool := is_word_char c || Py.isspace c.

(** Cleaning as it goes on pure ASCII text: lower each character, keep the
    word characters and the whitespace. *)
Definition ascii_clean `{UnicodeData} (s : list Z) : list Z :=
  filter (λ c, keep c = true) (map Py.ascii_lower s).

(** The number a list of decimal digits spells. *)
Definition of_digits (digits : list Z) : Z :=
  fold_left (λ acc d, 10 * acc + d) digits 0.

(** A stand-in for [core_utils] whose reader fails on every file. *)
Definition unreadable : CoreUtils := {|
  Article := list Z;
  get_article_id_from_filepath := λ p, inr (Z.of_nat (length p));
  from_raw := λ _, inl "OSError"%string;
  split_by_sentence := λ text, [text];
|}.

(** A stand-in for the rest of [core_utils]: the text of an article is the
    article, setting sentences leaves it alone, writing succeeds, and the
    assets live under "assets". *)
Definition stand_in_io : @ArticleIO stand_in := {|
  text := λ article : @Article stand_in, article;
  set_conllu_sentences := λ article _, article;
  to_cleaned := λ _, inr tt;
  ASSETS_PATH := lit "assets";
|}.

(** * Properties *)

(** Unfold the outermost bind of a method body. *)
Ltac bind_step := unfold mbind at 1, M_bind at 1.

(** ** Sorting and ranges *)

Lemma range_from_1 (n : nat) : Py.range 1 (Z.of_nat n + 1) = seqZ 1 (Z.of_nat n).
Proof. unfold Py.range. f_equal. lia. Qed.

Lemma StronglySorted_seqZ (m : Z) (n : nat) : StronglySorted Z.le (seqZ m (Z.of_nat n)).
Proof.
  revert m. induction n as [|n IH]; intros m.
  - rewrite seqZ_nil by lia. constructor.
  - rewrite seqZ_cons by lia. replace (Z.pred (Z.of_nat (S n))) with (Z.of_nat n) by lia.
    constructor; [apply IH|].
    apply Forall_seqZ. lia.
Qed.

Lemma sorted_is_range_iff (l : list Z) :
  Py.sorted l = Py.range 1 (Z.of_nat (length l) + 1) ↔ l ≡ₚ seqZ 1 (Z.of_nat (length l)).
Proof.
  rewrite range_from_1. unfold Py.sorted. split.
  - intros E. rewrite <- E. symmetry. apply merge_sort_Permutation.
  - intros P. apply (StronglySorted_unique Z.le).
    + apply StronglySorted_merge_sort; apply _.
    + apply StronglySorted_seqZ.
    + rewrite merge_sort_Permutation. exact P.
Qed.

(** ** The naming convention of raw files *)

Lemma glob_match_literals (cs name : list Z) :
  Pathlib.glob_match (map Pathlib.Lit cs) name = true ↔ name = cs.
Proof.
  revert name. induction cs as [|c cs IH]; intros [|x name]; cbn; try done.
  rewrite andb_true_iff, bool_decide_eq_true, IH.
  split; [by intros [-> ->] | by intros [= -> ->]].
Qed.

Lemma glob_match_star (p : list Pathlib.glob_item) (name : list Z) :
  Pathlib.glob_match (Pathlib.Star :: p) name = true ↔
  ∃ skipped rest, name = skipped ++ rest ∧ Pathlib.glob_match p rest = true.
Proof.
  induction name as [|x name IH].
  - cbn. rewrite orb_false_r. split.
    + intros Hm. by exists [], [].
    + intros (skipped & rest & Hn & Hm).
      symmetry in Hn. apply app_eq_nil in Hn as [_ ->]. done.
  - change (Pathlib.glob_match (Pathlib.Star :: p) (x :: name))
      with (Pathlib.glob_match p (x :: name)
            || Pathlib.glob_match (Pathlib.Star :: p) name).
    rewrite orb_true_iff, IH. split.
    + intros [Hm|(skipped & rest & -> & Hm)].
      * by exists [], (x :: name).
      * by exists (x :: skipped), rest.
    + intros ([|y skipped] & rest & Hn & Hm).
      * left. cbn in Hn. by rewrite Hn.
      * right. injection Hn as -> ->. by exists skipped, rest.
Qed.

(** A raw file is an entry whose name ends in [_raw.txt]. *)
Lemma is_raw_name_suffix (name : list Z) :
  is_raw_name name = true ↔ ∃ stem, name = stem ++ lit "_raw.txt".
Proof.
  unfold is_raw_name.
  change (Pathlib.glob_pattern "*_raw.txt")
    with (Pathlib.Star :: map Pathlib.Lit (lit "_raw.txt")).
  rewrite glob_match_star. split.
  - intros (stem & rest & -> & Hm). apply glob_match_literals in Hm as ->. by exists stem.
  - intros (stem & ->). exists stem, (lit "_raw.txt"). split; [done|].
    by apply glob_match_literals.
Qed.

Lemma index_found (c : Z) (s t : list Z) : ∃ k, Py.index c (s ++ c :: t) = Ok k.
Proof.
  induction s as [|x s [k IH]]; cbn.
  - rewrite bool_decide_eq_true_2 by done. by eexists.
  - destruct (bool_decide (x = c)); [by eexists|]. rewrite IH. by eexists.
Qed.

(** The name of a raw file contains an underscore, so [index] finds one and
    a failure to read its ID is a failure of [int]. *)
Lemma raw_name_index (name : list Z) :
  is_raw_name name = true → ∃ k, Py.index 95 name = Ok k.
Proof.
  intros (stem & ->)%is_raw_name_suffix. apply (index_found 95 stem (lit "raw.txt")).
Qed.

(** ** Validation of the dataset *)

Section validation.
Context {U : UnicodeData} {C : CoreUtils}.
Implicit Types (fs : filesystem) (self : CorpusManager.t) (raw : list dirent).

Lemma check_sizes_run raw self :
  for_ raw (λ file,
      size ← lift (Pathlib.st_size file);
      CorpusManager.when_ (bool_decide (size = 0))
        (raise InconsistentDatasetError)) self
  = (sizes_outcome raw, self).
Proof.
  induction raw as [|file rest IH]; [done|].
  cbn [for_ sizes_outcome]. unfold mbind, M_bind, lift in *.
  destruct (Pathlib.st_size file) as [size|e]; [|done].
  unfold CorpusManager.when_ at 1.
  destruct (bool_decide (size = 0)); [done|]. cbn. apply IH.
Qed.

Lemma collect_ids_run raw (acc : list Z) self :
  for_acc raw acc (λ list_of_ids file,
      i ← lift (CorpusManager.id_of_name (d_name file));
      mret (list_of_ids ++ [i])) self
  = (match CorpusManager.raw_file_ids raw with
     | Ok ids => Ok (acc ++ ids)
     | Raise e => Raise e
     end, self).
Proof.
  revert acc. induction raw as [|file rest IH]; intros acc.
  - cbn. by rewrite app_nil_r.
  - cbn [for_acc CorpusManager.raw_file_ids].
    unfold mbind at 1 2 3, M_bind at 1 2, lift, result_bind at 1.
    destruct (CorpusManager.id_of_name (d_name file)) as [i|e]; [|done].
    cbn. rewrite IH. unfold mbind, result_bind, mret, result_ret.
    destruct (CorpusManager.raw_file_ids rest); [|done].
    by rewrite <- app_assoc.
Qed.

Lemma validate_dataset_run fs self :
  CorpusManager._validate_dataset fs self
  = (validation_outcome (fs (CorpusManager.path_to_data self)), self).
Proof.
  unfold CorpusManager._validate_dataset, Pathlib.glob, Pathlib.exists_,
    Pathlib.is_dir, Pathlib.iterdir.
  bind_step; unfold get.
  destruct (fs (CorpusManager.path_to_data self)) as [| |entries]; [done..|].
  destruct entries as [|e0 entries]; [done|].
  unfold mbind at 1 2 3, M_bind at 1 2 3.
  cbn [negb CorpusManager.any_path existsb orb CorpusManager.when_ mret M_ret].
  bind_step. rewrite check_sizes_run.
  unfold validation_outcome, is_raw_name.
  set (raw := filter _ (e0 :: entries)).
  destruct (sizes_outcome raw) as [[]|e]; [|done].
  bind_step. rewrite collect_ids_run.
  destruct (CorpusManager.raw_file_ids raw) as [ids|e]; [|done].
  cbn [app]. unfold CorpusManager.when_.
  rewrite <- (bool_decide_ext _ _ (sorted_is_range_iff ids)).
  rewrite bool_decide_not. by destruct (bool_decide _).
Qed.

Lemma index_raises c s e : Py.index c s = Raise e → e = ValueError.
Proof.
  induction s as [|x rest IH]; cbn; [congruence|].
  destruct (bool_decide (x = c)); [done|].
  destruct (Py.index c rest); cbn; [done|]. intros [= <-]. by apply IH.
Qed.

Lemma int_raises s e : Py.int s = Raise e → e = ValueError.
Proof.
  unfold Py.int. destruct (Py.strip_with _ s) as [|c rest]; cbn.
  { congruence. }
  repeat (case_match; simplify_eq; try congruence).
Qed.

Lemma id_of_name_raises name e : CorpusManager.id_of_name name = Raise e → e = ValueError.
Proof.
  unfold CorpusManager.id_of_name, mbind, result_bind.
  destruct (Py.index 95 name) eqn:E.
  - apply int_raises.
  - intros [= <-]. by eapply index_raises.
Qed.


(** The loop over the sizes returns when every raw file can be read and is
    not empty. *)
Lemma sizes_outcome_ok raw :
  sizes_outcome raw = Ok tt ↔
  ∀ file, file ∈ raw → ∃ size, Pathlib.st_size file = Ok size ∧ size ≠ 0.
Proof.
  induction raw as [|file rest IH]; cbn.
  - split; [|done]. intros _ file Hin. by apply elem_of_nil in Hin.
  - destruct (Pathlib.st_size file) as [size|e] eqn:E.
    + case_bool_decide as Hz.
      * split; [done|]. intros Hall.
        destruct (Hall file) as (size' & Hs & Hnz); [by left|]. congruence.
      * rewrite IH. split.
        -- intros Hall f [->|Hin]%elem_of_cons; [by exists size | by apply Hall].
        -- intros Hall f Hin. apply Hall. by right.
    + split; [done|]. intros Hall.
      destruct (Hall file) as (size' & Hs & _); [by left|]. congruence.
Qed.

(** When [stat()] returns on every raw file, the loop over the sizes raises
    InconsistentDatasetError if a raw file is empty and returns otherwise. *)
Lemma sizes_outcome_readable raw :
  (∀ file, file ∈ raw → stat_returns file) →
  (sizes_outcome raw = Raise InconsistentDatasetError ∧
   ∃ file, file ∈ raw ∧ Pathlib.st_size file = Ok 0)
  ∨ (sizes_outcome raw = Ok tt ∧
     ¬ ∃ file, file ∈ raw ∧ Pathlib.st_size file = Ok 0).
Proof.
  induction raw as [|file rest IH]; intros Hall; cbn.
  - right. split; [done|]. intros (file & Hin & _). by apply elem_of_nil in Hin.
  - destruct (Hall file) as [size Hs]; [by left|]. rewrite Hs.
    case_bool_decide as Hz.
    + left. split; [done|]. exists file. split; [by left | by rewrite Hs, Hz].
    + destruct IH as [[-> (f & Hin & Hf)]|[-> Hno]].
      * intros f Hin. apply Hall. by right.
      * left. split; [done|]. exists f. split; [by right | done].
      * right. split; [done|]. intros (f & [->|Hin]%elem_of_cons & Hf).
        -- congruence.
        -- apply Hno. by exists f.
Qed.


End validation.

(** ** The order of the directory listing *)

Section listing_order.
Context {U : UnicodeData}.
Implicit Types (raw : list dirent).

(** Listing the raw files in another order permutes the IDs, or fails alike. *)
Lemma raw_file_ids_perm raw raw' :
  raw ≡ₚ raw' →
  match CorpusManager.raw_file_ids raw, CorpusManager.raw_file_ids raw' with
  | Ok ids, Ok ids' => ids ≡ₚ ids'
  | Raise e, Raise e' => e = e'
  | _, _ => False
  end.
Proof.
  induction 1 as [|x l l' _ IH|x y l|l l' l'' _ IH1 _ IH2].
  - cbn. done.
  - cbn. destruct (CorpusManager.id_of_name (d_name x)); cbn; [|done].
    destruct (CorpusManager.raw_file_ids l), (CorpusManager.raw_file_ids l'); cbn; try done.
    by constructor.
  - cbn.
    destruct (CorpusManager.id_of_name (d_name x)) eqn:Ex,
             (CorpusManager.id_of_name (d_name y)) eqn:Ey; cbn.
    + destruct (CorpusManager.raw_file_ids l); cbn; [apply perm_swap | done].
    + done.
    + done.
    + apply id_of_name_raises in Ex, Ey. congruence.
  - destruct (CorpusManager.raw_file_ids l), (CorpusManager.raw_file_ids l'),
      (CorpusManager.raw_file_ids l''); try done; by etrans.
Qed.

Lemma same_listing_raw (n n' : node) :
  same_listing n n' →
  filter (λ file, is_raw_name (d_name file) = true)
         (match n with Dir entries => entries | _ => [] end)
  ≡ₚ filter (λ file, is_raw_name (d_name file) = true)
            (match n' with Dir entries => entries | _ => [] end).
Proof. destruct 1 as [| |d d' P]; [done..|]. by rewrite P. Qed.

(** When [stat()] returns on every raw file, the loop over the sizes ends
    alike whatever the order of the raw files. *)
Lemma sizes_outcome_perm raw raw' :
  raw ≡ₚ raw' →
  (∀ file, file ∈ raw → stat_returns file) →
  sizes_outcome raw = sizes_outcome raw'.
Proof.
  intros P Hall.
  assert (Hall' : ∀ file, file ∈ raw' → stat_returns file).
  { intros file Hin. apply Hall. by rewrite P. }
  destruct (sizes_outcome_readable raw Hall) as [[-> (f & Hin & Hf)]|[-> Hno]],
           (sizes_outcome_readable raw' Hall') as [[-> (f' & Hin' & Hf')]|[-> Hno']];
    try done.
  - destruct Hno'. exists f. split; [by rewrite <- P | done].
  - destruct Hno. exists f'. split; [by rewrite P | done].
Qed.

(** That the loop over the sizes returns does not depend on the order. *)
Lemma sizes_outcome_ok_perm raw raw' :
  raw ≡ₚ raw' → sizes_outcome raw = Ok tt → sizes_outcome raw' = Ok tt.
Proof.
  intros P. rewrite !sizes_outcome_ok. intros Hall file Hin.
  apply Hall. by rewrite P.
Qed.

Lemma ids_outcome_perm raw raw' :
  raw ≡ₚ raw' →
  match CorpusManager.raw_file_ids raw with
  | Raise e => Raise e
  | Ok ids =>
      if bool_decide (ids ≡ₚ seqZ 1 (Z.of_nat (length ids)))
      then Ok tt else Raise InconsistentDatasetError
  end
  = match CorpusManager.raw_file_ids raw' with
    | Raise e => Raise e
    | Ok ids =>
        if bool_decide (ids ≡ₚ seqZ 1 (Z.of_nat (length ids)))
        then Ok tt else Raise InconsistentDatasetError
    end.
Proof.
  intros P. pose proof (raw_file_ids_perm _ _ P) as Hids.
  destruct (CorpusManager.raw_file_ids raw) as [ids|e],
           (CorpusManager.raw_file_ids raw') as [ids'|e']; try done; [|congruence].
  assert (length ids = length ids') as -> by by apply Permutation_length.
  erewrite (bool_decide_ext (ids ≡ₚ _)); [done|].
  by rewrite Hids.
Qed.

(** When [stat()] returns on every raw file, validation ends alike whatever
    the order of the listing. *)
Lemma validation_outcome_perm (n n' : node) :
  same_listing n n' →
  (∀ file, file ∈ filter (λ file, is_raw_name (d_name file) = true)
                         (match n with Dir entries => entries | _ => [] end) →
           stat_returns file) →
  validation_outcome n = validation_outcome n'.
Proof.
  intros Hsame Hall. pose proof (same_listing_raw _ _ Hsame) as Pf.
  destruct Hsame as [| |d d' P]; [done..|].
  destruct d as [|e0 d], d' as [|e0' d'].
  - done.
  - by apply Permutation_nil_cons in P.
  - symmetry in P. by apply Permutation_nil_cons in P.
  - unfold validation_outcome. cbn [filter] in Pf, Hall.
    rewrite <- (sizes_outcome_perm _ _ Pf Hall).
    destruct (sizes_outcome _) as [[]|e]; [|done].
    apply (ids_outcome_perm _ _ Pf).
Qed.

(** That validation returns does not depend on the order of the listing. *)
Lemma validation_outcome_ok_perm (n n' : node) :
  same_listing n n' → validation_outcome n = Ok tt → validation_outcome n' = Ok tt.
Proof.
  intros Hsame. pose proof (same_listing_raw _ _ Hsame) as Pf.
  destruct Hsame as [| |d d' P]; [done..|].
  destruct d as [|e0 d], d' as [|e0' d'].
  - done.
  - by apply Permutation_nil_cons in P.
  - symmetry in P. by apply Permutation_nil_cons in P.
  - unfold validation_outcome. cbn [filter] in Pf.
    destruct (sizes_outcome (filter _ (e0 :: d))) as [[]|e] eqn:Hs; [|done].
    rewrite (sizes_outcome_ok_perm _ _ Pf Hs).
    by rewrite (ids_outcome_perm _ _ Pf).
Qed.

End listing_order.

(** ** Construction of the corpus manager *)

Section construction.
Context {U : UnicodeData} {C : CoreUtils}.
Implicit Types (fs : filesystem) (self : CorpusManager.t) (raw : list dirent).

Lemma new_run fs path :
  CorpusManager.new fs path
  = match validation_outcome (fs path) with
    | Raise e => (Raise e, fresh path)
    | Ok _ => CorpusManager._scan_dataset fs (fresh path)
    end.
Proof.
  unfold CorpusManager.new, CorpusManager.__init__.
  unfold mbind at 1 2 3, M_bind at 1 2 3, modify. cbn.
  rewrite validate_dataset_run. cbn. fold (fresh path).
  by destruct (validation_outcome (fs path)).
Qed.





Lemma glob_raw_unfold fs path :
  Pathlib.glob fs path "*_raw.txt"
  = filter (λ file, is_raw_name (d_name file) = true)
           (match fs path with Dir entries => entries | _ => [] end).
Proof. done. Qed.


(** Every entry of a [directory] can be read by [stat()]. *)
Lemma directory_readable (entries : list (string * Z)) path (pattern : string) file :
  file ∈ Pathlib.glob (directory entries) path pattern → stat_returns file.
Proof.
  unfold Pathlib.glob, Pathlib.iterdir, directory.
  intros [_ Hin]%list_elem_of_filter.
  apply list_elem_of_fmap in Hin as ([name size] & -> & _). by exists size.
Qed.





Lemma raw_file_ids_fails raw file :
  file ∈ raw → CorpusManager.id_of_name (d_name file) = Raise ValueError →
  CorpusManager.raw_file_ids raw = Raise ValueError.
Proof.
  induction 1 as [file rest|file file0 rest _ IH]; intros Hfail; cbn.
  - by rewrite Hfail.
  - destruct (CorpusManager.id_of_name (d_name file0)) as [i|e] eqn:E; cbn.
    + by rewrite IH.
    + by apply id_of_name_raises in E as ->.
Qed.

(** The ID of a raw file is [int] of what precedes its first underscore. *)
Lemma id_of_raw_name (name : list Z) :
  is_raw_name name = true →
  ∃ k, Py.index 95 name = Ok k ∧
       CorpusManager.id_of_name name = Py.int (take k name).
Proof.
  intros [k Hk]%raw_name_index. exists k. split; [done|].
  unfold CorpusManager.id_of_name. by rewrite Hk.
Qed.

(** C10.  In a directory where no raw file is empty ([stat()] returns on
    each of them a size other than 0) and the part of some raw file name
    before its first underscore does not convert to an integer, the
    construction fails with ValueError and not with
    InconsistentDatasetError; a directory holding one non-empty file called
    [abc_raw.txt] or [_raw.txt] is one. *)
Theorem construction_raises_ValueError :
  (∀ fs path,
     let raw := Pathlib.glob fs path "*_raw.txt" in
     (∀ file, file ∈ raw → ∃ size, Pathlib.st_size file = Ok size ∧ size ≠ 0) →
     (∃ file k, file ∈ raw ∧ Py.index 95 (d_name file) = Ok k ∧
                Py.int (take k (d_name file)) = Raise ValueError) →
     (CorpusManager.new fs path).1 = Raise ValueError)
  ∧ (∀ (name : string) (size : Z) path,
       name ∈ ["abc_raw.txt"; "_raw.txt"]%string → size ≠ 0 →
       let fs := directory [(name, size)] in
       Pathlib.glob fs path "*_raw.txt" = [{| d_name := lit name; d_stat := inr size |}] ∧
       (∃ k, Py.index 95 (lit name) = Ok k ∧
             Py.int (take k (lit name)) = Raise ValueError) ∧
       (CorpusManager.new fs path).1 = Raise ValueError ∧
       (CorpusManager.new fs path).1 ≠ Raise InconsistentDatasetError).
Proof.
  assert (Hgen : ∀ fs path,
     let raw := Pathlib.glob fs path "*_raw.txt" in
     (∀ file, file ∈ raw → ∃ size, Pathlib.st_size file = Ok size ∧ size ≠ 0) →
     (∃ file k, file ∈ raw ∧ Py.index 95 (d_name file) = Ok k ∧
                Py.int (take k (d_name file)) = Raise ValueError) →
     (CorpusManager.new fs path).1 = Raise ValueError).
  { intros fs path raw Hsizes (file & k & Hin & Hk & Hint).
    assert (Hfail : CorpusManager.id_of_name (d_name file) = Raise ValueError).
    { unfold CorpusManager.id_of_name. by rewrite Hk. }
    rewrite new_run. subst raw. rewrite glob_raw_unfold in *.
    destruct (fs path) as [| |[|e0 rest]]; try by apply elem_of_nil in Hin.
    unfold validation_outcome.
    set (raw := filter _ (e0 :: rest)) in *.
    apply sizes_outcome_ok in Hsizes as ->.
    by rewrite (raw_file_ids_fails _ _ Hin Hfail). }
  split; [exact Hgen|].
  intros name size path Hname Hsize fs.
  assert (Hglob : Pathlib.glob fs path "*_raw.txt"
                  = [{| d_name := lit name; d_stat := inr size |}]).
  { rewrite !elem_of_cons in Hname. destruct Hname as [->|[->|Hn]]; [done..|].
    by apply elem_of_nil in Hn. }
  assert (Hint : ∃ k, Py.index 95 (lit name) = Ok k ∧
                      Py.int (take k (lit name)) = Raise ValueError).
  { rewrite !elem_of_cons in Hname. destruct Hname as [->|[->|Hn]].
    - by exists 3%nat.
    - by exists 0%nat.
    - by apply elem_of_nil in Hn. }
  assert (Hnew : (CorpusManager.new fs path).1 = Raise ValueError).
  { apply Hgen.
    - rewrite Hglob. intros file ->%list_elem_of_singleton. by exists size.
    - rewrite Hglob. destruct Hint as (k & Hk & Hi).
      eexists _, k. split; [by apply list_elem_of_singleton|]. done. }
  split_and!; [done..|]. by rewrite Hnew.
Qed.

End construction.

(** ** Cleaning a token *)

Section token.
Context {U : UnicodeData}.

Lemma re_sub_delete (p : Py.char_class) (s : str) :
  Py.re_sub p [] s = filter (λ c, Py.class_matches p c = false) s.
Proof.
  induction s as [|c rest IH]; [done|].
  cbn [Py.re_sub]. rewrite filter_cons.
  destruct (Py.class_matches p c); cbn.
  - rewrite decide_False by done. exact IH.
  - rewrite decide_True by done. by rewrite IH.
Qed.

Lemma not_punctuation_iff (c : char) :
  Py.class_matches (Py.NegatedSet [Py.Word; Py.Space]) c = false ↔
  is_word_char c = true ∨ Py.isspace c = true.
Proof.
  unfold is_word_char. cbn.
  destruct (Py.isalnum c), (bool_decide (c = 95)), (Py.isspace c); cbn; intuition congruence.
Qed.

(** C3.  [get_cleaned] returns the lowercased surface text without the
    characters that are neither word characters nor whitespace; it turns
    "Hello, World!" into "hello world" and "!!!" into the empty string. *)
Theorem get_cleaned_spec (token : ConlluToken.t) :
  ConlluToken.get_cleaned token = clean (ConlluToken._text token)
  ∧ ConlluToken.get_cleaned (ConlluToken.__init__ (lit "Hello, World!")) = lit "hello world"
  ∧ ConlluToken.get_cleaned (ConlluToken.__init__ (lit "!!!")) = lit "".
Proof.
  split; [|done].
  unfold ConlluToken.get_cleaned, clean. rewrite re_sub_delete.
  apply list_filter_iff. intros c. rewrite not_punctuation_iff.
  rewrite orb_true_iff. done.
Qed.

End token.

(** ** Stripping and splitting *)

Section strip_facts.
Context (p : Z → bool).

Lemma drop_while_app (s t : list Z) :
  Py.drop_while p (s ++ t)
  = match Py.drop_while p s with
    | [] => Py.drop_while p t
    | _ => Py.drop_while p s ++ t
    end.
Proof.
  induction s as [|c rest IH]; [done|].
  cbn. destruct (p c); [exact IH | done].
Qed.

Lemma drop_while_head (s : list Z) c :
  head (Py.drop_while p s) = Some c → p c = false.
Proof.
  induction s as [|x rest IH]; [done|].
  cbn. destruct (p x) eqn:E; [exact IH|]. cbn. by intros [= <-].
Qed.

Lemma drop_while_suffix (s : list Z) : Py.drop_while p s `suffix_of` s.
Proof.
  induction s as [|x rest IH]; [done|].
  cbn. destruct (p x); [by apply suffix_cons_r | done].
Qed.

Lemma drop_while_id (s : list Z) :
  (∀ c, head s = Some c → p c = false) → Py.drop_while p s = s.
Proof.
  destruct s as [|x rest]; [done|]. intros Hh. cbn. by rewrite (Hh x).
Qed.

Lemma suffix_last (s t : list Z) c :
  s `suffix_of` t → last s = Some c → last t = Some c.
Proof.
  intros [pre ->] Hl. rewrite last_app. by rewrite Hl.
Qed.

Lemma strip_with_snoc (s : list Z) c :
  p c = true → Py.strip_with p (s ++ [c]) = Py.strip_with p s.
Proof.
  intros Hc. unfold Py.strip_with. rewrite drop_while_app.
  destruct (Py.drop_while p s) as [|x rest] eqn:E.
  - cbn. by rewrite Hc.
  - rewrite reverse_app. cbn [reverse rev_append app Py.drop_while]. by rewrite Hc.
Qed.

Lemma strip_with_no_outer (s : list Z) :
  (∀ c, head (Py.strip_with p s) = Some c → p c = false) ∧
  (∀ c, last (Py.strip_with p s) = Some c → p c = false).
Proof.
  unfold Py.strip_with. split; intros c.
  - rewrite head_reverse. intros Hl.
    apply (suffix_last _ _ _ (drop_while_suffix _)) in Hl.
    rewrite last_reverse in Hl. by apply drop_while_head in Hl.
  - rewrite last_reverse. apply drop_while_head.
Qed.

Lemma strip_with_id (s : list Z) :
  (∀ c, head s = Some c → p c = false) →
  (∀ c, last s = Some c → p c = false) →
  Py.strip_with p s = s.
Proof.
  intros Hh Hl. unfold Py.strip_with.
  rewrite (drop_while_id s Hh), drop_while_id.
  - apply reverse_involutive.
  - intros c. rewrite head_reverse. apply Hl.
Qed.

End strip_facts.

Section split_facts.
Context {U : UnicodeData}.

(** Every fragment of [s.split()] is non-empty and free of whitespace. *)
Lemma split_from_fragments (word s : list Z) :
  Forall (λ c, Py.isspace c = false) word →
  Forall (λ w, w ≠ [] ∧ Forall (λ c, Py.isspace c = false) w) (Py.split_from word s).
Proof.
  revert word. induction s as [|c rest IH]; intros word Hword; cbn.
  - destruct word as [|x word]; [constructor|].
    constructor; [|constructor]. split.
    + intros Hr. apply (f_equal length) in Hr. rewrite length_reverse in Hr. done.
    + by apply Forall_reverse.
  - destruct (Py.isspace c) eqn:Ec.
    + destruct word as [|x word]; [by apply IH|].
      constructor; [|by apply IH]. split.
      * intros Hr. apply (f_equal length) in Hr. rewrite length_reverse in Hr. done.
      * by apply Forall_reverse.
    + apply IH. by constructor.
Qed.

Lemma strip_fragment (s w : list Z) : w ∈ Py.split s → Py.strip w = w.
Proof.
  intros Hin.
  pose proof (split_from_fragments [] s (Forall_nil_2 _)) as Hall.
  rewrite Forall_forall in Hall. destruct (Hall w Hin) as [_ Hw].
  rewrite Forall_forall in Hw.
  apply strip_with_id; intros c Hc; apply Hw.
  - by apply head_Some_elem_of.
  - by apply last_Some_elem_of.
Qed.

Lemma tokens_of_split (s : list Z) :
  map (λ word, ConlluToken.__init__ (Py.strip word)) (Py.split s)
  = map ConlluToken.__init__ (Py.split s).
Proof.
  apply map_ext_in. intros w Hin. f_equal.
  apply (strip_fragment s). by apply list_elem_of_In.
Qed.

End split_facts.

(** ** The cleaned sentence *)

Section sentence.
Context {U : UnicodeData}.

Lemma truthy_nonempty (s : list Z) : ConlluSentence.truthy s = true ↔ s ≠ [].
Proof. by destruct s. Qed.

Lemma cleaned_fold (tokens : list ConlluToken.t) (acc : list Z) :
  fold_left (λ sentence token,
      let cleaned_token := ConlluToken.get_cleaned token in
      if ConlluSentence.truthy cleaned_token
      then sentence ++ (cleaned_token ++ lit " ")
      else sentence) tokens acc
  = acc ++ concat (map (λ w, w ++ lit " ") (cleaned_words tokens)).
Proof.
  revert acc. induction tokens as [|token rest IH]; intros acc.
  - cbn. by rewrite app_nil_r.
  - cbn [fold_left]. rewrite IH. unfold cleaned_words. cbn [map].
    rewrite filter_cons.
    destruct (ConlluToken.get_cleaned token) as [|c w] eqn:E; cbn [ConlluSentence.truthy].
    + by rewrite decide_False by (intros Hn; by apply Hn).
    + rewrite decide_True by done. cbn [map concat]. by rewrite <- app_assoc.
Qed.

Lemma concat_spaced (words : list (list Z)) :
  words ≠ [] →
  concat (map (λ w, w ++ lit " ") words) = Py.join (lit " ") words ++ lit " ".
Proof.
  induction words as [|w [|w' rest] IH]; [done| |]; intros _.
  - cbn. by rewrite app_nil_r.
  - change (Py.join (lit " ") (w :: w' :: rest))
      with (w ++ lit " " ++ Py.join (lit " ") (w' :: rest)).
    cbn [map concat] in *. rewrite IH by done.
    by rewrite <- !app_assoc.
Qed.

Lemma space_isspace : Py.isspace 32 = true.
Proof. done. Qed.

Lemma get_cleaned_sentence_strip (s : ConlluSentence.t) :
  ConlluSentence.get_cleaned_sentence s
  = Py.strip (Py.join (lit " ") (cleaned_words (ConlluSentence._tokens s))).
Proof.
  unfold ConlluSentence.get_cleaned_sentence. rewrite cleaned_fold. cbn [app].
  destruct (cleaned_words (ConlluSentence._tokens s)) as [|w rest] eqn:E; [done|].
  rewrite concat_spaced by done.
  apply (strip_with_snoc Py.isspace _ 32 space_isspace).
Qed.

Lemma join_no_outer_space (words : list (list Z)) :
  Forall (λ w, w ≠ []) words →
  Forall no_outer_space words →
  no_outer_space (Py.join (lit " ") words).
Proof.
  induction words as [|w [|w' rest] IH]; intros Hne Hno.
  - split; intros c; cbn; done.
  - by apply Forall_inv in Hno.
  - apply Forall_cons in Hne as [Hw Hne]. apply Forall_cons in Hno as [Hwo Hno].
    specialize (IH Hne Hno).
    change (Py.join (lit " ") (w :: w' :: rest))
      with (w ++ lit " " ++ Py.join (lit " ") (w' :: rest)).
    set (J := Py.join (lit " ") (w' :: rest)) in *.
    assert (HJ : J ≠ []).
    { subst J. apply Forall_inv in Hne. destruct rest; [done|].
      cbn. destruct w'; done. }
    clearbody J. split; intros c.
    + destruct w as [|x w]; [done|]. cbn. intros [= <-]. destruct Hwo as [Hh _]. by apply Hh.
    + rewrite 2!last_app. destruct (last J) as [y|] eqn:El.
      * cbn. intros [= <-]. destruct IH as [_ Hl]. by apply Hl.
      * apply last_None in El. done.
Qed.

(** C4 (as amended).  [get_cleaned_sentence] returns the non-empty cleaned
    forms of the tokens, in token order, joined by single spaces and then
    stripped of leading and trailing whitespace; the result never starts or
    ends with whitespace; it is the join itself whenever no non-empty cleaned
    form starts or ends with whitespace; and the tokens "Wow!" and "Really?"
    give "wow really". *)
Theorem get_cleaned_sentence_spec (s : ConlluSentence.t) :
  let words := cleaned_words (ConlluSentence._tokens s) in
  ConlluSentence.get_cleaned_sentence s = Py.strip (Py.join (lit " ") words)
  ∧ no_outer_space (ConlluSentence.get_cleaned_sentence s)
  ∧ (Forall no_outer_space words →
     ConlluSentence.get_cleaned_sentence s = Py.join (lit " ") words)
  ∧ ConlluSentence.get_cleaned_sentence
      (ConlluSentence.__init__ 0 (lit "Wow! Really?")
         [ConlluToken.__init__ (lit "Wow!"); ConlluToken.__init__ (lit "Really?")])
    = lit "wow really".
Proof.
  intros words. split_and!.
  - apply get_cleaned_sentence_strip.
  - rewrite get_cleaned_sentence_strip. apply strip_with_no_outer.
  - intros Hno. rewrite get_cleaned_sentence_strip.
    assert (Hne : Forall (λ w : list Z, w ≠ []) words).
    { subst words. unfold cleaned_words. apply Forall_forall.
      intros w Hin. by apply list_elem_of_filter in Hin as [? _]. }
    destruct (join_no_outer_space words Hne Hno) as [Hh Hl].
    by apply strip_with_id.
  - done.
Qed.

End sentence.

(** C4 as it is worded fails on a token that starts with a space: the
    sentence made of the one token " x" cleans to "x", while the join of its
    non-empty cleaned forms is " x". *)
Lemma get_cleaned_sentence_is_not_the_join :
  @ConlluSentence.get_cleaned_sentence ascii_only
    (ConlluSentence.__init__ 0 (lit " x") [ConlluToken.__init__ (lit " x")])
  = lit "x"
  ∧ Py.join (lit " ") (@cleaned_words ascii_only [ConlluToken.__init__ (lit " x")])
    = lit " x"
  ∧ @ConlluSentence.get_cleaned_sentence ascii_only
      (ConlluSentence.__init__ 0 (lit " x") [ConlluToken.__init__ (lit " x")])
    ≠ Py.join (lit " ") (@cleaned_words ascii_only [ConlluToken.__init__ (lit " x")]).
Proof. split_and!; [done | done | discriminate]. Qed.

(** ** The basic pipeline *)

Lemma fold_append_enumerate {A B} (f : Z → A → B) (l : list A) (k : nat) (acc : list B) :
  fold_left (λ acc '(position, x), acc ++ [f position x])
            (imap (λ i x, (Z.of_nat (k + i), x)) l) acc
  = acc ++ imap (λ i x, f (Z.of_nat (k + i)) x) l.
Proof.
  revert k acc. induction l as [|x l IH]; intros k acc.
  - cbn. by rewrite app_nil_r.
  - cbn [imap fold_left].
    rewrite (imap_ext _ (λ i x, (Z.of_nat (S k + i), x)) l)
      by (intros; cbn; do 2 f_equal; lia).
    rewrite IH, <- app_assoc. cbn. do 2 f_equal.
    apply imap_ext. intros; cbn. do 2 f_equal. lia.
Qed.

Section pipeline.
Context {U : UnicodeData} {C : CoreUtils}.

(** Once the module binds the name, [_process] wraps the sentences of the
    segmentation function with the positions 0, 1, ... and gives each the
    whitespace-split fragments of its text as tokens. *)
Lemma process_in_bound (globals : list string) (text : list Z) :
  "split_by_sentence"%string ∈ globals →
  MorphologicalAnalysisPipeline._process_in globals text
  = Ok (imap (λ i sentence,
          ConlluSentence.__init__ (Z.of_nat i) sentence
            (map ConlluToken.__init__ (Py.split sentence)))
        (split_by_sentence text)).
Proof.
  intros Hin. unfold MorphologicalAnalysisPipeline._process_in, load_global.
  rewrite bool_decide_eq_true_2 by done. cbn [mbind result_bind mret result_ret].
  f_equal. unfold enumerate.
  rewrite (fold_append_enumerate
             (λ position sentence, ConlluSentence.__init__ position sentence
                (map (λ word, ConlluToken.__init__ (Py.strip word)) (Py.split sentence)))
             _ 0 []).
  cbn [app]. apply imap_ext. intros i sentence _. cbn.
  by rewrite tokens_of_split.
Qed.

(** C5.  [_process] reads the global name [split_by_sentence], which no
    statement of the module binds: for every text the call raises NameError
    and returns no sentence, the text "Cats run. Dogs sleep." included. *)
Theorem process_raises_NameError (text : list Z) :
  ("split_by_sentence"%string ∉ module_globals)
  ∧ MorphologicalAnalysisPipeline._process text
    = Raise (NameError "split_by_sentence")
  ∧ MorphologicalAnalysisPipeline._process (lit "Cats run. Dogs sleep.")
    = Raise (NameError "split_by_sentence").
Proof.
  split; [|done]. by apply (bool_decide_eq_false_1 _).
Qed.

End pipeline.

(** ** Methods without a body *)

(** C6.  [ConlluSentence.get_conllu_text] has no statement besides its
    docstring: for every sentence and either flag it returns [None], so
    there is no block of lines to read the sentence number and text from. *)
Theorem sentence_get_conllu_text_returns_None
    (s : ConlluSentence.t) (include_morphological_tags : bool) :
  ConlluSentence.get_conllu_text s include_morphological_tags = None.
Proof. done. Qed.

(** C7.  [MorphologicalTokenDTO.__init__] assigns nothing and the two token
    accessors have no statement besides their docstrings: an annotation has
    no [lemma], [pos] or [tags] attribute, and [get_morphological_parameters]
    called after [set_morphological_parameters] returns [None] from an
    unchanged token. *)
Theorem annotation_is_not_stored (lemma pos tags : list Z) (token : ConlluToken.t) :
  let a := MorphologicalTokenDTO.new lemma pos tags in
  MorphologicalTokenDTO.getattr a "lemma" = Raise (AttributeError "lemma")
  ∧ MorphologicalTokenDTO.getattr a "pos" = Raise (AttributeError "pos")
  ∧ MorphologicalTokenDTO.getattr a "tags" = Raise (AttributeError "tags")
  ∧ (ConlluToken.set_morphological_parameters a;;
     ConlluToken.get_morphological_parameters) token = (Ok None, token).
Proof. done. Qed.

(** C8.  Both [convert_pos] methods have no statement besides their
    docstrings: whatever the converter and the tag, each returns [None] and
    never a part-of-speech string. *)
Theorem convert_pos_returns_None {Mystem OpenCorpora Tag : Type}
    (mystem : Mystem) (opencorpora : OpenCorpora) (tags : list Z) (tag : Tag) :
  MystemTagConverter.convert_pos mystem tags = None
  ∧ OpenCorporaTagConverter.convert_pos opencorpora tag = None.
Proof. done. Qed.


(** * Further properties of the code *)

(** ** Validation *)

Section validation_more.
Context {U : UnicodeData} {C : CoreUtils}.
Implicit Types (fs : filesystem) (self : CorpusManager.t) (raw : list dirent).

Lemma raw_file_ids_Forall2 raw ids :
  CorpusManager.raw_file_ids raw = Ok ids ↔
  Forall2 (λ file i, CorpusManager.id_of_name (d_name file) = Ok i) raw ids.
Proof.
  revert ids. induction raw as [|file rest IH]; intros ids; cbn.
  - split; [intros [= <-]; constructor | by intros ->%Forall2_nil_inv_l].
  - destruct (CorpusManager.id_of_name (d_name file)) as [i|e] eqn:E; cbn.
    + destruct (CorpusManager.raw_file_ids rest) as [ids'|e] eqn:E'; cbn.
      * split.
        -- unfold mret, result_ret. intros [= <-]. constructor; [done | by apply IH].
        -- intros (i' & ids'' & Hi & Hrest & ->)%Forall2_cons_inv_l.
           apply IH in Hrest. unfold mret, result_ret. congruence.
      * split; [done|].
        intros (i' & ids'' & Hi & Hrest & ->)%Forall2_cons_inv_l.
        apply IH in Hrest. done.
    + split; [done|].
      intros (i' & ids'' & Hi & Hrest & ->)%Forall2_cons_inv_l. congruence.
Qed.

Lemma validation_outcome_ok (n : node) :
  validation_outcome n = Ok tt ↔
  ∃ entries,
    n = Dir entries ∧ entries ≠ [] ∧
    let raw := filter (λ file, is_raw_name (d_name file) = true) entries in
    (∀ file, file ∈ raw → ∃ size, Pathlib.st_size file = Ok size ∧ size ≠ 0) ∧
    ∃ ids, CorpusManager.raw_file_ids raw = Ok ids ∧
           ids ≡ₚ seqZ 1 (Z.of_nat (length ids)).
Proof.
  destruct n as [| |[|e0 entries]].
  1-3: split; [done | intros (entries & Heq & Hne & _); by simplify_eq].
  unfold validation_outcome. set (raw := filter _ (e0 :: entries)).
  pose proof (sizes_outcome_ok raw) as Hsizes.
  destruct (sizes_outcome raw) as [[]|e] eqn:Hex.
  - destruct (CorpusManager.raw_file_ids raw) as [ids|e] eqn:Hids.
    + case_bool_decide as Hp.
      * split; [|done]. intros _. exists (e0 :: entries).
        split_and!; [done | done | by apply Hsizes | by exists ids].
      * split; [done|]. intros (entries' & [= <-] & _ & _ & ids' & Hids' & Hp').
        fold raw in Hids'. congruence.
    + split; [done|]. intros (entries' & [= <-] & _ & _ & ids' & Hids' & _).
      fold raw in Hids'. congruence.
  - split; [done|]. intros (entries' & [= <-] & _ & Hsz & _).
    apply Hsizes in Hsz. done.
Qed.

Lemma validate_dataset_ok fs self :
  (CorpusManager._validate_dataset fs self).1 = Ok tt ↔
  ∃ entries,
    fs (CorpusManager.path_to_data self) = Dir entries ∧ entries ≠ [] ∧
    let raw := Pathlib.glob fs (CorpusManager.path_to_data self) "*_raw.txt" in
    (∀ file, file ∈ raw → ∃ size, Pathlib.st_size file = Ok size ∧ size ≠ 0) ∧
    ∃ ids, CorpusManager.raw_file_ids raw = Ok ids ∧
           ids ≡ₚ seqZ 1 (Z.of_nat (length ids)).
Proof.
  rewrite validate_dataset_run. cbn [fst]. rewrite validation_outcome_ok.
  rewrite glob_raw_unfold.
  split; intros (entries & Hdir & Hrest); exists entries; by rewrite Hdir in *.
Qed.


(** X2.  When [_validate_dataset] returns normally, every raw file has an ID
    between 1 and the number of raw files, and no two raw files of the
    listing have the same ID. *)
Theorem validated_ids_are_distinct_and_bounded fs self :
  (CorpusManager._validate_dataset fs self).1 = Ok tt →
  let raw := Pathlib.glob fs (CorpusManager.path_to_data self) "*_raw.txt" in
  ∃ ids,
    Forall2 (λ file i, CorpusManager.id_of_name (d_name file) = Ok i) raw ids ∧
    NoDup ids ∧
    Forall (λ i, 1 ≤ i ≤ Z.of_nat (length raw)) ids.
Proof.
  intros (entries & _ & _ & _ & ids & Hids & Hperm)%validate_dataset_ok raw.
  subst raw. exists ids. apply raw_file_ids_Forall2 in Hids as HF. split; [done|].
  rewrite (Forall2_length _ _ _ HF). split.
  - rewrite Hperm. apply NoDup_seqZ.
  - rewrite Hperm at 1. apply Forall_seqZ. lia.
Qed.

(** X3.  [_validate_dataset] changes no attribute of the manager and reads
    no article, whether it returns or raises. *)
Theorem validate_dataset_leaves_self fs self :
  (CorpusManager._validate_dataset fs self).2 = self.
Proof. by rewrite validate_dataset_run. Qed.

(** X4.  When [stat()] returns on every raw file, the whole outcome of
    [_validate_dataset], and not only whether it is
    InconsistentDatasetError, is the same for every order in which the
    directory lists its entries; whether or not [stat()] returns on all of
    them, the method returns normally under one order exactly when it does
    under the other.  (Where [stat()] raises on a raw file, which exception
    the method raises can depend on the order.) *)
Theorem validate_dataset_order_independent fs fs' self :
  same_listing (fs (CorpusManager.path_to_data self))
               (fs' (CorpusManager.path_to_data self)) →
  let raw := Pathlib.glob fs (CorpusManager.path_to_data self) "*_raw.txt" in
  ((∀ file, file ∈ raw → stat_returns file) →
   CorpusManager._validate_dataset fs' self = CorpusManager._validate_dataset fs self)
  ∧ ((CorpusManager._validate_dataset fs' self).1 = Ok tt ↔
     (CorpusManager._validate_dataset fs self).1 = Ok tt).
Proof.
  intros Hsame raw. rewrite !validate_dataset_run. cbn [fst]. split.
  - intros Hall. subst raw. rewrite glob_raw_unfold in Hall.
    by rewrite (validation_outcome_perm _ _ Hsame Hall).
  - split; apply validation_outcome_ok_perm; [|done].
    destruct Hsame; by constructor.
Qed.

End validation_more.

(** ** Loading the articles *)

Section loading_more.
Context {U : UnicodeData} {C : CoreUtils}.
Implicit Types (fs : filesystem) (self : CorpusManager.t) (raw : list dirent).

(** The mapping after the assignments [storage[k] = a] for the pairs of
    [pairs], made from left to right. *)
Lemma fold_setitem (pairs : list (Z * Article)) (m : gmap Z Article) :
  fold_left (λ m '(k, a), <[k := a]> m) pairs m
  = list_to_map (reverse pairs) ∪ m.
Proof.
  revert m. induction pairs as [|[k a] pairs IH]; intros m; cbn [fold_left].
  - symmetry. apply (left_id_L ∅ (∪)).
  - rewrite IH, reverse_cons, list_to_map_app. cbn.
    rewrite <- (assoc_L (∪)). f_equal.
    by rewrite insert_union_singleton_l, insert_empty.
Qed.

Lemma scan_loop_success (dir : list Z) raw self pairs :
  loaded dir raw = inr pairs →
  for_ raw (λ file,
     let path := Pathlib.joinpath dir (d_name file) in
     article_id ← call (get_article_id_from_filepath path);
     article ← CorpusManager.call_from_raw path;
     CorpusManager.storage_setitem article_id article) self
  = (Ok tt,
     {| CorpusManager.path_to_data := CorpusManager.path_to_data self;
        CorpusManager._storage :=
          fold_left (λ m '(k, a), <[k := a]> m) pairs (CorpusManager._storage self);
        CorpusManager.from_raw_calls :=
          CorpusManager.from_raw_calls self
          ++ map (λ file, Pathlib.joinpath dir (d_name file)) raw |}).
Proof.
  revert self pairs. induction raw as [|file rest IH]; intros self pairs;
    cbn [loaded for_ map].
  - intros [= <-]. cbn. rewrite app_nil_r. by destruct self.
  - destruct (get_article_id_from_filepath _) as [what|article_id]; [done|].
    destruct (from_raw _) as [what|article] eqn:Eraw; [done|].
    destruct (loaded dir rest) as [what|pairs'] eqn:Erest; [done|].
    intros [= <-].
    bind_step. bind_step. cbn [call mret M_ret].
    bind_step. unfold CorpusManager.call_from_raw. bind_step. unfold modify.
    rewrite Eraw. cbn [call mret M_ret CorpusManager.storage_setitem modify].
    erewrite IH by done. cbn. by rewrite <- app_assoc.
Qed.

Lemma scan_loop_failure (dir : list Z) raw self what :
  loaded dir raw = inl what →
  (for_ raw (λ file,
     let path := Pathlib.joinpath dir (d_name file) in
     article_id ← call (get_article_id_from_filepath path);
     article ← CorpusManager.call_from_raw path;
     CorpusManager.storage_setitem article_id article) self).1
  = Raise (Other what).
Proof.
  revert self. induction raw as [|file rest IH]; intros self; cbn; [done|].
  bind_step. bind_step.
  destruct (get_article_id_from_filepath _) as [w|article_id] eqn:Eid; cbn.
  { by intros [= <-]. }
  bind_step. unfold CorpusManager.call_from_raw. bind_step. unfold modify. cbn.
  destruct (from_raw _) as [w|article] eqn:Eraw; cbn.
  { by intros [= <-]. }
  destruct (loaded dir rest) as [w|pairs'] eqn:Erest; [|done].
  intros [= <-]. by apply IH.
Qed.


Lemma scan_dataset_unfold fs self :
  CorpusManager._scan_dataset fs self
  = for_ (Pathlib.glob fs (CorpusManager.path_to_data self) "*_raw.txt") (λ file,
     let path := Pathlib.joinpath (CorpusManager.path_to_data self) (d_name file) in
     article_id ← call (get_article_id_from_filepath path);
     article ← CorpusManager.call_from_raw path;
     CorpusManager.storage_setitem article_id article) self.
Proof. done. Qed.


(** X6.  When validation passes and the collaborators return for every raw
    file, the constructor returns normally, [from_raw] has been called once
    for each raw file in listing order, and [get_articles()] is the mapping
    built by assigning each article under its ID from left to right, so that
    of two raw files with one ID the later one stays. *)
Theorem construction_loads_every_raw_file fs path pairs :
  (CorpusManager._validate_dataset fs (fresh path)).1 = Ok tt →
  loaded path (Pathlib.glob fs path "*_raw.txt") = inr pairs →
  ∃ obj,
    CorpusManager.new fs path = (Ok tt, obj) ∧
    CorpusManager.from_raw_calls obj
    = map (λ file, Pathlib.joinpath path (d_name file))
          (Pathlib.glob fs path "*_raw.txt") ∧
    CorpusManager.get_articles obj = (Ok (list_to_map (reverse pairs)), obj).
Proof.
  rewrite validate_dataset_run. cbn [fst fresh CorpusManager.path_to_data].
  intros Hok Hloaded. rewrite new_run, Hok, scan_dataset_unfold.
  cbn [fresh CorpusManager.path_to_data].
  rewrite (scan_loop_success _ _ _ _ Hloaded). eexists. split; [done|].
  cbn. split; [done|].
  unfold CorpusManager.get_articles, mbind, M_bind, get. cbn.
  by rewrite fold_setitem, (right_id_L ∅ (∪)).
Qed.

(** X7.  When validation passes and a collaborator raises on some raw file,
    the constructor raises that exception: nothing is caught, and the first
    failure in listing order is the one that shows. *)
Theorem construction_propagates_collaborator_failure fs path what :
  (CorpusManager._validate_dataset fs (fresh path)).1 = Ok tt →
  loaded path (Pathlib.glob fs path "*_raw.txt") = inl what →
  (CorpusManager.new fs path).1 = Raise (Other what).
Proof.
  rewrite validate_dataset_run. cbn [fst fresh CorpusManager.path_to_data].
  intros Hok Hloaded. rewrite new_run, Hok, scan_dataset_unfold.
  cbn [fresh CorpusManager.path_to_data].
  by apply scan_loop_failure.
Qed.


End loading_more.

(** ** The ID of a raw file *)

Section raw_file_id.
Context {U : UnicodeData}.

Lemma index_first (c : Z) (stem rest : list Z) :
  c ∉ stem → Py.index c (stem ++ c :: rest) = Ok (length stem).
Proof.
  induction stem as [|x stem IH]; intros Hnot; cbn.
  - by rewrite bool_decide_eq_true_2.
  - apply not_elem_of_cons in Hnot as [Hne Hnot].
    rewrite bool_decide_eq_false_2 by done. by rewrite IH.
Qed.

Lemma id_of_name_stem (stem rest : list Z) :
  95 ∉ stem → CorpusManager.id_of_name (stem ++ 95 :: rest) = Py.int stem.
Proof.
  intros Hnot. unfold CorpusManager.id_of_name.
  rewrite (index_first _ _ _ Hnot). cbn. by rewrite take_app_length.
Qed.

(** X9.  The name of a raw file always contains an underscore, so reading
    its ID never fails in [index]: the ID is [int] of what precedes the
    first underscore of the name, whatever follows it. *)
Theorem raw_file_id_is_int_of_stem (name : list Z) :
  is_raw_name name = true →
  ∃ stem rest,
    name = stem ++ 95 :: rest ∧ (95 ∉ stem) ∧
    Py.index 95 name = Ok (length stem) ∧
    CorpusManager.id_of_name name = Py.int stem.
Proof.
  intros (pre & ->)%is_raw_name_suffix.
  assert (Hin : 95 ∈ pre ++ lit "_raw.txt").
  { apply elem_of_app. right. by left. }
  apply list_elem_of_split_l in Hin as (stem & rest & Hsplit & Hnot).
  exists stem, rest. rewrite Hsplit.
  split_and!; [done | done | by apply index_first | by apply id_of_name_stem].
Qed.

Lemma int_digits_decimal (digits : list Z) (acc : Z) (after_digit : bool) :
  Forall (λ d, 0 ≤ d ≤ 9) digits →
  Py.int_digits acc after_digit (map (λ d, 48 + d) digits)
  = match digits with
    | [] => if after_digit then Some acc else None
    | _ => Some (fold_left (λ acc d, 10 * acc + d) digits acc)
    end.
Proof.
  intros Hd. revert acc after_digit.
  induction Hd as [|d digits Hd _ IH]; intros acc after_digit; [done|].
  cbn [map Py.int_digits fold_left].
  rewrite bool_decide_eq_false_2 by lia.
  unfold Py.int_digit, Py.is_ascii.
  rewrite bool_decide_eq_true_2 by lia. rewrite bool_decide_eq_true_2 by lia.
  rewrite IH. replace (48 + d - 48) with d by lia. by destruct digits.
Qed.

Lemma int_decimal (digits : list Z) :
  digits ≠ [] → Forall (λ d, 0 ≤ d ≤ 9) digits →
  Py.int (map (λ d, 48 + d) digits) = Ok (of_digits digits).
Proof.
  intros Hne Hd. unfold Py.int.
  assert (Hnospace : ∀ c, c ∈ map (λ d, 48 + d) digits → Py.int_isspace c = false).
  { intros c (d & -> & Hin)%list_elem_of_fmap.
    rewrite Forall_forall in Hd. specialize (Hd d Hin).
    unfold Py.int_isspace, Py.is_ascii. rewrite bool_decide_eq_true_2 by lia.
    rewrite !bool_decide_eq_false_2 by lia. done. }
  rewrite strip_with_id.
  2: { intros c Hc. by apply Hnospace, head_Some_elem_of. }
  2: { intros c Hc. by apply Hnospace, last_Some_elem_of. }
  destruct digits as [|d digits]; [done|].
  apply Forall_cons in Hd as Hd'. destruct Hd' as [Hd0 _].
  assert (Hsign : ∀ rest : list Z,
            match (48 + d) :: rest with
            | 43 :: r => (1, r)
            | 45 :: r => (-1, r)
            | _ => (1, (48 + d) :: rest)
            end = (1, (48 + d) :: rest)).
  { intros rest.
    assert (d = 0 ∨ d = 1 ∨ d = 2 ∨ d = 3 ∨ d = 4 ∨ d = 5 ∨ d = 6 ∨ d = 7
            ∨ d = 8 ∨ d = 9) as Hcase by lia.
    repeat (destruct Hcase as [->|Hcase]; [done|]). by subst. }
  cbn [map]. rewrite Hsign.
  change ((48 + d) :: map (λ d, 48 + d) digits) with (map (λ d, 48 + d) (d :: digits)).
  rewrite (int_digits_decimal (d :: digits) 0 false Hd).
  unfold of_digits. f_equal. lia.
Qed.

(** X10.  A raw file whose name is decimal digits followed by [_raw.txt]
    has as its ID the number the digits spell, and one more zero in front
    gives the same ID. *)
Theorem id_of_decimal_name (digits : list Z) :
  digits ≠ [] → Forall (λ d, 0 ≤ d ≤ 9) digits →
  let name := map (λ d, 48 + d) digits ++ lit "_raw.txt" in
  is_raw_name name = true ∧
  CorpusManager.id_of_name name = Ok (of_digits digits) ∧
  CorpusManager.id_of_name (48 :: name) = CorpusManager.id_of_name name.
Proof.
  intros Hne Hd name.
  assert (Hstem : ∀ ds, Forall (λ d, 0 ≤ d ≤ 9) ds → ds ≠ [] →
            CorpusManager.id_of_name (map (λ d, 48 + d) ds ++ lit "_raw.txt")
            = Ok (of_digits ds)).
  { intros ds Hds Hdsne.
    change (lit "_raw.txt") with (95 :: lit "raw.txt").
    rewrite id_of_name_stem; [by apply int_decimal|].
    intros (d & Hd95 & Hin)%list_elem_of_fmap.
    rewrite Forall_forall in Hds. specialize (Hds d Hin). lia. }
  split_and!.
  - apply is_raw_name_suffix. by eexists.
  - by apply Hstem.
  - subst name. rewrite (Hstem digits Hd Hne).
    change (48 :: map (λ d, 48 + d) digits ++ lit "_raw.txt")
      with (map (λ d, 48 + d) (0 :: digits) ++ lit "_raw.txt").
    rewrite Hstem; [done | by constructor | done].
Qed.

End raw_file_id.

(** ** Cleaning, character by character *)

Section cleaning_more.
Context {U : UnicodeData}.

(** X11.  Whatever the token, its cleaned form holds only word characters
    and whitespace. *)
Theorem get_cleaned_keeps_words_and_spaces (token : ConlluToken.t) :
  Forall (λ c, is_word_char c = true ∨ Py.isspace c = true)
         (ConlluToken.get_cleaned token).
Proof.
  unfold ConlluToken.get_cleaned. rewrite re_sub_delete.
  apply Forall_forall. intros c [Hc _]%list_elem_of_filter.
  by apply not_punctuation_iff.
Qed.

Lemma ascii_Forall (s : list Z) :
  forallb Py.is_ascii s = true ↔ Forall (λ c, Py.is_ascii c = true) s.
Proof. by rewrite forallb_forall, Forall_forall; setoid_rewrite list_elem_of_In. Qed.

Lemma ascii_lower_ascii (c : Z) :
  Py.is_ascii c = true → Py.is_ascii (Py.ascii_lower c) = true.
Proof.
  unfold Py.is_ascii, Py.ascii_lower. rewrite !bool_decide_eq_true.
  case_bool_decide; lia.
Qed.

Lemma ascii_lower_idemp (c : Z) : Py.ascii_lower (Py.ascii_lower c) = Py.ascii_lower c.
Proof.
  unfold Py.ascii_lower. repeat case_bool_decide; lia.
Qed.

Lemma ascii_lower_not_upper (c : Z) : ¬ 65 ≤ Py.ascii_lower c ≤ 90.
Proof. unfold Py.ascii_lower. case_bool_decide; lia. Qed.

Lemma ascii_lower_isspace (c : Z) :
  Py.is_ascii c = true → Py.isspace (Py.ascii_lower c) = Py.isspace c.
Proof.
  intros Hc. unfold Py.isspace. rewrite Hc, (ascii_lower_ascii c Hc).
  unfold Py.ascii_lower. destruct (bool_decide (65 ≤ c ≤ 90)) eqn:Hup; [|done].
  apply bool_decide_eq_true in Hup.
  rewrite !bool_decide_eq_false_2 by lia. done.
Qed.

Lemma ascii_lower_space (c : Z) :
  Py.is_ascii c = true → Py.isspace c = true → Py.ascii_lower c = c.
Proof.
  intros Hc. unfold Py.isspace. rewrite Hc.
  rewrite !orb_true_iff, !bool_decide_eq_true. intros Hs.
  unfold Py.ascii_lower. rewrite bool_decide_eq_false_2; [done | lia].
Qed.

(** Cleaning of pure ASCII text: lower each character, keep the word
    characters and the whitespace. *)
Lemma clean_ascii (s : list Z) :
  forallb Py.is_ascii s = true →
  clean s = filter (λ c, keep c = true) (map Py.ascii_lower s).
Proof. intros Hs. unfold clean, Py.lower. by rewrite Hs. Qed.

Lemma get_cleaned_clean (token : ConlluToken.t) :
  ConlluToken.get_cleaned token = clean (ConlluToken._text token).
Proof.
  unfold ConlluToken.get_cleaned, clean. rewrite re_sub_delete.
  apply list_filter_iff. intros c. rewrite not_punctuation_iff.
  by rewrite orb_true_iff.
Qed.

Lemma clean_ascii_is_ascii (s : list Z) :
  forallb Py.is_ascii s = true → forallb Py.is_ascii (clean s) = true.
Proof.
  intros Hs. rewrite (clean_ascii s Hs). apply ascii_Forall.
  apply Forall_forall. intros c [_ Hin]%list_elem_of_filter.
  apply list_elem_of_fmap in Hin as (x & -> & Hx).
  apply ascii_Forall in Hs. rewrite Forall_forall in Hs.
  by apply ascii_lower_ascii, Hs.
Qed.

(** X12.  On a token of pure ASCII text, cleaning twice is cleaning once,
    and the cleaned form has no capital letter. *)
Theorem get_cleaned_ascii_idempotent (token : ConlluToken.t) :
  forallb Py.is_ascii (ConlluToken._text token) = true →
  ConlluToken.get_cleaned (ConlluToken.__init__ (ConlluToken.get_cleaned token))
  = ConlluToken.get_cleaned token
  ∧ Forall (λ c, ¬ 65 ≤ c ≤ 90) (ConlluToken.get_cleaned token).
Proof.
  intros Hs. rewrite !get_cleaned_clean. cbn [ConlluToken.__init__ ConlluToken._text].
  pose proof (clean_ascii_is_ascii _ Hs) as Hs'.
  rewrite (clean_ascii (clean _) Hs'), (clean_ascii _ Hs). split.
  - set (l := map Py.ascii_lower (ConlluToken._text token)).
    assert (Hl : map Py.ascii_lower (filter (λ c, keep c = true) l)
                 = filter (λ c, keep c = true) l).
    { rewrite <- (map_id (filter _ l)) at 2. apply map_ext_in.
      intros c Hin. apply list_elem_of_In, list_elem_of_filter in Hin as [_ Hin].
      apply list_elem_of_fmap in Hin as (x & -> & _). apply ascii_lower_idemp. }
    rewrite Hl. apply list_filter_filter_l. done.
  - apply Forall_forall. intros c [_ Hin]%list_elem_of_filter.
    apply list_elem_of_fmap in Hin as (x & -> & _). apply ascii_lower_not_upper.
Qed.

(** X13.  On pure ASCII text cleaning works character by character: the
    cleaned form of a concatenation is the concatenation of the cleaned
    forms. *)
Theorem get_cleaned_ascii_app (a b : list Z) :
  forallb Py.is_ascii a = true → forallb Py.is_ascii b = true →
  ConlluToken.get_cleaned (ConlluToken.__init__ (a ++ b))
  = ConlluToken.get_cleaned (ConlluToken.__init__ a)
    ++ ConlluToken.get_cleaned (ConlluToken.__init__ b).
Proof.
  intros Ha Hb. rewrite !get_cleaned_clean. cbn [ConlluToken.__init__ ConlluToken._text].
  rewrite !clean_ascii; [|done|done|by rewrite forallb_app, Ha, Hb].
  by rewrite map_app, filter_app.
Qed.

End cleaning_more.

(** ** The cleaned sentence, further *)

Section strip_more.
Context (p : Z → bool).

Lemma drop_while_nil_iff (s : list Z) :
  Py.drop_while p s = [] ↔ Forall (λ c, p c = true) s.
Proof.
  induction s as [|c rest IH]; cbn.
  - split; [constructor | done].
  - destruct (p c) eqn:E.
    + rewrite IH. split; [by constructor | by intros [_ ?]%Forall_cons].
    + split; [done | intros [? _]%Forall_cons; congruence].
Qed.

Lemma strip_with_nil_iff (s : list Z) :
  Py.strip_with p s = [] ↔ Forall (λ c, p c = true) s.
Proof.
  unfold Py.strip_with. rewrite <- drop_while_nil_iff. split.
  - intros Hr. apply (f_equal reverse) in Hr. rewrite reverse_involutive in Hr.
    cbn in Hr. apply drop_while_nil_iff in Hr. apply Forall_reverse in Hr.
    rewrite reverse_involutive in Hr.
    destruct (Py.drop_while p s) as [|c rest] eqn:E; [done|].
    apply Forall_cons in Hr as [Hc _].
    assert (Hh : head (Py.drop_while p s) = Some c) by by rewrite E.
    apply drop_while_head in Hh. congruence.
  - by intros ->.
Qed.

End strip_more.

Section sentence_more.
Context {U : UnicodeData}.

Lemma join_all_space (words : list (list Z)) :
  Forall (λ c, Py.isspace c = true) (Py.join (lit " ") words) ↔
  Forall (Forall (λ c, Py.isspace c = true)) words.
Proof.
  induction words as [|w [|w' rest] IH].
  - split; constructor.
  - cbn. split; [by repeat constructor | by intros [? _]%Forall_cons].
  - change (Py.join (lit " ") (w :: w' :: rest))
      with (w ++ lit " " ++ Py.join (lit " ") (w' :: rest)).
    rewrite !Forall_app, IH, (Forall_cons _ w). split.
    + by intros (? & _ & ?).
    + intros [? ?]. split_and!; [done | by repeat constructor | done].
Qed.

(** X14.  The cleaned sentence is the empty string exactly when the cleaned
    form of every token is empty or made of whitespace only; a sentence
    without tokens, or with punctuation tokens only, cleans to the empty
    string. *)
Theorem get_cleaned_sentence_empty_iff (s : ConlluSentence.t) :
  ConlluSentence.get_cleaned_sentence s = [] ↔
  Forall (λ token, Forall (λ c, Py.isspace c = true) (ConlluToken.get_cleaned token))
         (ConlluSentence._tokens s).
Proof.
  rewrite get_cleaned_sentence_strip. unfold Py.strip.
  rewrite strip_with_nil_iff, join_all_space. unfold cleaned_words.
  rewrite !Forall_forall. split.
  - intros Hall token Hin.
    destruct (ConlluToken.get_cleaned token) as [|c w] eqn:E; [constructor|].
    rewrite <- E. apply Hall. apply list_elem_of_filter. split; [by rewrite E|].
    apply list_elem_of_fmap. by exists token.
  - intros Hall w [_ Hin]%list_elem_of_filter.
    apply list_elem_of_fmap in Hin as (token & -> & Hin). by apply Hall.
Qed.

End sentence_more.

(** ** Splitting and cleaning *)

Section split_more.
Context {U : UnicodeData}.

(** The fragments of [s.split()], put end to end, are [s] without its
    whitespace. *)
Lemma concat_split_from (word s : list Z) :
  concat (Py.split_from word s)
  = reverse word ++ filter (λ c, Py.isspace c = false) s.
Proof.
  revert word. induction s as [|c rest IH]; intros word.
  - cbn. destruct word as [|x word]; [done|]. cbn. by rewrite !app_nil_r.
  - cbn [Py.split_from]. rewrite filter_cons.
    destruct (Py.isspace c) eqn:Ec.
    + rewrite decide_False by done.
      destruct word as [|x word]; [by rewrite IH|].
      cbn [concat]. by rewrite IH.
    + rewrite decide_True by done. rewrite IH, reverse_cons, <- app_assoc. done.
Qed.

Lemma split_from_ascii (word s : list Z) :
  Forall (λ c, Py.is_ascii c = true) word →
  Forall (λ c, Py.is_ascii c = true) s →
  Forall (Forall (λ c, Py.is_ascii c = true)) (Py.split_from word s).
Proof.
  intros Hw Hs. revert word Hw.
  induction Hs as [|c rest Hc _ IH]; intros word Hw; cbn.
  - destruct word; [constructor|]. constructor; [by apply Forall_reverse | constructor].
  - destruct (Py.isspace c).
    + destruct word; [by apply IH|].
      constructor; [by apply Forall_reverse | by apply IH].
    + apply IH. by constructor.
Qed.

Lemma clean_ascii_clean (s : list Z) :
  forallb Py.is_ascii s = true → clean s = ascii_clean s.
Proof. apply clean_ascii. Qed.

Lemma ascii_clean_cons (c : Z) (s : list Z) :
  ascii_clean (c :: s)
  = (if keep (Py.ascii_lower c) then [Py.ascii_lower c] else []) ++ ascii_clean s.
Proof.
  unfold ascii_clean. cbn [map]. rewrite filter_cons.
  destruct (keep (Py.ascii_lower c)); [by rewrite decide_True | by rewrite decide_False].
Qed.

Lemma ascii_clean_reverse (s : list Z) :
  ascii_clean (reverse s) = reverse (ascii_clean s).
Proof.
  induction s as [|c s IH]; [done|].
  rewrite ascii_clean_cons, reverse_cons. unfold ascii_clean in *.
  rewrite map_app, filter_app, IH. cbn [map]. rewrite filter_cons, filter_nil.
  destruct (keep (Py.ascii_lower c)).
  - rewrite decide_True by done. by rewrite reverse_app.
  - rewrite decide_False by done. by rewrite app_nil_r.
Qed.

Lemma filter_nonempty_cons (w : list Z) (ws : list (list Z)) :
  filter (λ w, w ≠ []) (w :: ws)
  = match w with [] => filter (λ w, w ≠ []) ws | _ => w :: filter (λ w, w ≠ []) ws end.
Proof.
  rewrite filter_cons. destruct w; [by rewrite decide_False by (intros Hn; by apply Hn)|].
  by rewrite decide_True.
Qed.

Lemma reverse_nil_iff (w : list Z) : reverse w = [] ↔ w = [].
Proof.
  split; [|by intros ->]. intros Hr. apply (f_equal length) in Hr.
  rewrite length_reverse in Hr. by destruct w.
Qed.

(** A run that ends, in the text and in its cleaned form. *)
Lemma close_word (word : list Z) (rest : list (list Z)) :
  match ascii_clean word with
  | [] => rest
  | _ => reverse (ascii_clean word) :: rest
  end
  = match word with
    | [] => rest
    | _ => match ascii_clean (reverse word) with
           | [] => rest
           | _ => ascii_clean (reverse word) :: rest
           end
    end.
Proof.
  destruct word as [|x word]; [done|]. rewrite ascii_clean_reverse.
  destruct (ascii_clean (x :: word)) as [|y w] eqn:E; [done|].
  destruct (reverse (y :: w)) eqn:Er; [|done].
  apply (proj1 (reverse_nil_iff _)) in Er. done.
Qed.

(** Splitting the cleaned text gives the cleaned fragments that are not
    empty. *)
Lemma split_from_clean (word s : list Z) :
  Forall (λ c, Py.is_ascii c = true) s →
  Py.split_from (ascii_clean word) (ascii_clean s)
  = filter (λ w, w ≠ []) (map ascii_clean (Py.split_from word s)).
Proof.
  intros Hs. revert word. induction Hs as [|c rest Hc _ IH]; intros word.
  - change (ascii_clean []) with (@nil Z). cbn [Py.split_from].
    rewrite (close_word word []).
    destruct word as [|x word]; [done|].
    cbn [map]. rewrite filter_nonempty_cons. by destruct (ascii_clean _).
  - rewrite (ascii_clean_cons c rest). cbn [Py.split_from].
    destruct (Py.isspace c) eqn:Ec.
    + rewrite (ascii_lower_space c Hc Ec).
      assert (Hk : keep c = true) by (unfold keep; by rewrite Ec, orb_true_r).
      rewrite Hk. cbn [app Py.split_from]. rewrite Ec.
      pose proof (IH []) as IH0. change (ascii_clean []) with (@nil Z) in IH0.
      rewrite IH0, (close_word word).
      destruct word as [|x word]; [done|].
      cbn [map]. rewrite filter_nonempty_cons. by destruct (ascii_clean _).
    + rewrite <- IH. rewrite (ascii_clean_cons c word).
      destruct (keep (Py.ascii_lower c)) eqn:Ek; [|done].
      cbn [app Py.split_from]. by rewrite (ascii_lower_isspace c Hc), Ec.
Qed.

Lemma split_clean (s : list Z) :
  forallb Py.is_ascii s = true →
  Py.split (clean s) = filter (λ w, w ≠ []) (map clean (Py.split s)).
Proof.
  intros Hs. rewrite (clean_ascii_clean s Hs). apply ascii_Forall in Hs as Hs'.
  unfold Py.split. pose proof (split_from_clean [] s Hs') as E.
  change (ascii_clean []) with (@nil Z) in E. rewrite E. f_equal.
  apply map_ext_in. intros w Hin. symmetry. apply clean_ascii_clean, ascii_Forall.
  pose proof (split_from_ascii [] s (Forall_nil_2 _) Hs') as Hall.
  rewrite Forall_forall in Hall. by apply Hall, list_elem_of_In.
Qed.

Lemma split_no_outer_space (s : list Z) :
  Forall (λ w, w ≠ []) (Py.split s) ∧ Forall no_outer_space (Py.split s).
Proof.
  pose proof (split_from_fragments [] s (Forall_nil_2 _)) as Hall.
  split; apply Forall_forall; intros w Hin;
    rewrite Forall_forall in Hall; destruct (Hall w Hin) as [Hne Hns]; [done|].
  rewrite Forall_forall in Hns.
  split; intros c Hc; apply Hns; [by apply head_Some_elem_of | by apply last_Some_elem_of].
Qed.

(** X15.  For a sentence of pure ASCII text whose tokens are made as
    [_process] makes them (line 230), the cleaned sentence is the cleaned
    text of the sentence with every run of whitespace turned into one space
    and none left at either end. *)
Theorem cleaned_sentence_of_split_tokens (position : Z) (sentence : list Z) :
  forallb Py.is_ascii sentence = true →
  ConlluSentence.get_cleaned_sentence
    (ConlluSentence.__init__ position sentence
       (map (λ word, ConlluToken.__init__ (Py.strip word)) (Py.split sentence)))
  = Py.join (lit " ") (Py.split (clean sentence)).
Proof.
  intros Hs. rewrite tokens_of_split, get_cleaned_sentence_strip.
  cbn [ConlluSentence.__init__ ConlluSentence._tokens].
  assert (Hwords : cleaned_words (map ConlluToken.__init__ (Py.split sentence))
                   = Py.split (clean sentence)).
  { rewrite (split_clean _ Hs). unfold cleaned_words. rewrite map_map.
    f_equal. apply map_ext. intros w. apply get_cleaned_clean. }
  rewrite Hwords.
  destruct (split_no_outer_space (clean sentence)) as [Hne Hno].
  destruct (join_no_outer_space _ Hne Hno) as [Hh Hl].
  by apply strip_with_id.
Qed.

End split_more.

(** ** The pipeline, further *)

Section pipeline_more.
Context {U : UnicodeData} {C : CoreUtils}.

(** X16.  In a module that binds [split_by_sentence], [_process] returns one
    sentence for each segment of the segmentation function, in order: the
    i-th sentence has position i, the i-th segment as its text, and the
    whitespace-split fragments of that text as its tokens. *)
Theorem process_wraps_segments (globals : list string) (text : list Z) :
  "split_by_sentence"%string ∈ globals →
  ∃ sentences,
    MorphologicalAnalysisPipeline._process_in globals text = Ok sentences ∧
    length sentences = length (split_by_sentence text) ∧
    ∀ (i : nat) s, sentences !! i = Some s →
      ConlluSentence._position s = Z.of_nat i ∧
      split_by_sentence text !! i = Some (ConlluSentence._text s) ∧
      map ConlluToken._text (ConlluSentence._tokens s) = Py.split (ConlluSentence._text s).
Proof.
  intros Hin. rewrite (process_in_bound _ _ Hin). eexists. split; [done|].
  split; [by rewrite length_imap|].
  intros i s Hs. apply list_lookup_imap_Some in Hs as (segment & Hseg & ->).
  cbn. split_and!; [done | done |].
  rewrite map_map. cbn. apply map_id.
Qed.

(** X17.  In a module that binds [split_by_sentence], no token that
    [_process] builds is empty or holds a whitespace character, and the
    token texts of a sentence, put end to end, are the text of the sentence
    without its whitespace: tokens keep the characters and their order. *)
Theorem process_tokens_keep_text (globals : list string) (text : list Z) sentences :
  "split_by_sentence"%string ∈ globals →
  MorphologicalAnalysisPipeline._process_in globals text = Ok sentences →
  Forall (λ s,
      Forall (λ token, ConlluToken._text token ≠ [] ∧
                       Forall (λ c, Py.isspace c = false) (ConlluToken._text token))
             (ConlluSentence._tokens s) ∧
      concat (map ConlluToken._text (ConlluSentence._tokens s))
      = filter (λ c, Py.isspace c = false) (ConlluSentence._text s))
    sentences.
Proof.
  intros Hin. rewrite (process_in_bound _ _ Hin). intros [= <-].
  apply Forall_forall. intros s Hs.
  apply list_elem_of_lookup in Hs as [i Hs].
  apply list_lookup_imap_Some in Hs as (segment & Hseg & ->). cbn.
  rewrite map_map. cbn. rewrite map_id. split.
  - apply Forall_forall. intros token (w & <- & Hw)%list_elem_of_In%in_map_iff.
    pose proof (split_from_fragments [] segment (Forall_nil_2 _)) as Hall.
    rewrite Forall_forall in Hall. cbn. by apply Hall, list_elem_of_In.
  - unfold Py.split. by rewrite concat_split_from.
Qed.

End pipeline_more.

(** ** [run] and [main] *)

Section run_more.
Context {U : UnicodeData} {C : CoreUtils} {A : ArticleIO}.
Implicit Types (dict_order : gmap Z Article → list (Z * Article)).
Implicit Types (pipeline : PipelineRun.t) (items : list (Z * Article)).

Lemma run_in_unfold (globals : list string) dict_order pipeline :
  PipelineRun.run_in globals dict_order pipeline
  = for_ (dict_order (CorpusManager._storage (PipelineRun._corpus pipeline)))
      (λ '(key, article),
        sentences ← lift (MorphologicalAnalysisPipeline._process_in globals (text article));
        article ← PipelineRun.article_set_sentences key article sentences;
        PipelineRun.call_to_cleaned article) pipeline.
Proof. done. Qed.

Lemma run_loop_unbound (globals : list string) items pipeline :
  "split_by_sentence"%string ∉ globals →
  for_ items (λ '(key, article),
      sentences ← lift (MorphologicalAnalysisPipeline._process_in globals (text article));
      article ← PipelineRun.article_set_sentences key article sentences;
      PipelineRun.call_to_cleaned article) pipeline
  = (match items with
     | [] => Ok tt
     | _ => Raise (NameError "split_by_sentence")
     end, pipeline).
Proof.
  intros Hnot. destruct items as [|[key article] rest]; [done|].
  cbn [for_]. bind_step. bind_step.
  unfold lift, MorphologicalAnalysisPipeline._process_in, load_global.
  by rewrite bool_decide_eq_false_2.
Qed.

Lemma module_globals_unbound : "split_by_sentence"%string ∉ module_globals.
Proof. by apply (bool_decide_eq_false_1 _). Qed.

Lemma dict_order_nil dict_order (m : gmap Z Article) :
  (∀ m, dict_order m ≡ₚ map_to_list m) → dict_order m = [] ↔ m = ∅.
Proof.
  intros Horder. rewrite <- map_to_list_empty_iff. split; intros Hnil.
  - apply Permutation_nil_r. by rewrite <- (Horder m), Hnil.
  - apply Permutation_nil_r. by rewrite (Horder m), Hnil.
Qed.

Lemma run_outcome dict_order pipeline :
  (∀ m, dict_order m ≡ₚ map_to_list m) →
  PipelineRun.run dict_order pipeline
  = (if decide (CorpusManager._storage (PipelineRun._corpus pipeline) = ∅)
     then Ok tt else Raise (NameError "split_by_sentence"), pipeline).
Proof.
  intros Horder. unfold PipelineRun.run.
  rewrite run_in_unfold, (run_loop_unbound _ _ _ module_globals_unbound).
  pose proof (dict_order_nil dict_order
                (CorpusManager._storage (PipelineRun._corpus pipeline)) Horder) as Hnil.
  destruct (dict_order _) as [|item items]; case_decide as Hm; try done.
  - destruct Hm. by apply Hnil.
  - by apply Hnil in Hm.
Qed.

(** X18.  [run] raises NameError as soon as the corpus holds one article and
    returns normally on a corpus without articles; either way it changes no
    article and never calls [to_cleaned]. *)
Theorem run_fails_on_first_article dict_order pipeline :
  (∀ m, dict_order m ≡ₚ map_to_list m) →
  PipelineRun.run dict_order pipeline
  = (if decide (CorpusManager._storage (PipelineRun._corpus pipeline) = ∅)
     then Ok tt else Raise (NameError "split_by_sentence"), pipeline).
Proof. apply run_outcome. Qed.

Lemma run_loop_bound (globals : list string) items pipeline :
  "split_by_sentence"%string ∈ globals →
  Forall (λ item, to_cleaned (processed item.2) = inr tt) items →
  for_ items (λ '(key, article),
      sentences ← lift (MorphologicalAnalysisPipeline._process_in globals (text article));
      article ← PipelineRun.article_set_sentences key article sentences;
      PipelineRun.call_to_cleaned article) pipeline
  = (Ok tt,
     {| PipelineRun._corpus :=
          {| CorpusManager.path_to_data :=
               CorpusManager.path_to_data (PipelineRun._corpus pipeline);
             CorpusManager._storage :=
               fold_left (λ m '(key, article), <[key := processed article]> m) items
                 (CorpusManager._storage (PipelineRun._corpus pipeline));
             CorpusManager.from_raw_calls :=
               CorpusManager.from_raw_calls (PipelineRun._corpus pipeline) |};
        PipelineRun.to_cleaned_calls :=
          PipelineRun.to_cleaned_calls pipeline ++ map (λ item, processed item.2) items |}).
Proof.
  intros Hin Hall. revert pipeline.
  induction Hall as [|[key article] rest Hok _ IH]; intros pipeline.
  - cbn. rewrite app_nil_r. by destruct pipeline as [[] ?].
  - cbn [for_]. bind_step. bind_step.
    unfold lift. rewrite (process_in_bound _ _ Hin).
    fold (sentences_of (text article)).
    bind_step. unfold PipelineRun.article_set_sentences. bind_step. unfold modify.
    cbn [mret M_ret]. fold (processed article).
    unfold PipelineRun.call_to_cleaned. bind_step. cbn in Hok. rewrite Hok.
    cbn [call mret M_ret modify]. etrans; [apply IH|]. cbn. by rewrite <- app_assoc.
Qed.

(** Assigning [f a] under every key of a mapping, in any order, maps [f]
    over the mapping. *)
Lemma fold_setitem_fmap (f : Article → Article) items (m : gmap Z Article) :
  items ≡ₚ map_to_list m →
  fold_left (λ m '(key, article), <[key := f article]> m) items m = f <$> m.
Proof.
  intros Hperm.
  assert (Hfold : ∀ (l : list (Z * Article)) (m0 : gmap Z Article),
            fold_left (λ m '(key, article), <[key := f article]> m) l m0
            = fold_left (λ m '(k, a), <[k := a]> m) (prod_map id f <$> l) m0).
  { induction l as [|[k a] l IH]; intros m0; [done|]. cbn. apply IH. }
  rewrite Hfold, fold_setitem.
  assert (Hmap : list_to_map (reverse (prod_map id f <$> items)) = f <$> m).
  { rewrite <- (list_to_map_to_list m) at 1. rewrite <- list_to_map_fmap.
    apply list_to_map_proper.
    - assert (Hkeys : ∀ l : list (Z * Article), (prod_map id f <$> l).*1 = l.*1).
      { induction l as [|[k a] l IH]; [done|]. cbn. by rewrite IH. }
      rewrite reverse_Permutation, Hkeys, Hperm. apply NoDup_fst_map_to_list.
    - by rewrite reverse_Permutation, Hperm. }
  rewrite Hmap. apply map_eq. intros k.
  rewrite lookup_union, !lookup_fmap. by destruct (m !! k).
Qed.

(** X19.  In a module that binds [split_by_sentence], and when [to_cleaned]
    returns for every article of the corpus, [run] returns normally having
    set on each article the sentences of its text, under the same key, and
    having called [to_cleaned] once for each article, after its sentences
    were set, in the order of the mapping. *)
Theorem run_in_bound_processes_every_article (globals : list string)
    dict_order pipeline :
  "split_by_sentence"%string ∈ globals →
  (∀ m, dict_order m ≡ₚ map_to_list m) →
  (∀ key article,
     CorpusManager._storage (PipelineRun._corpus pipeline) !! key = Some article →
     to_cleaned (processed article) = inr tt) →
  PipelineRun.run_in globals dict_order pipeline
  = (Ok tt,
     {| PipelineRun._corpus :=
          {| CorpusManager.path_to_data :=
               CorpusManager.path_to_data (PipelineRun._corpus pipeline);
             CorpusManager._storage :=
               processed <$> CorpusManager._storage (PipelineRun._corpus pipeline);
             CorpusManager.from_raw_calls :=
               CorpusManager.from_raw_calls (PipelineRun._corpus pipeline) |};
        PipelineRun.to_cleaned_calls :=
          PipelineRun.to_cleaned_calls pipeline
          ++ map (λ item, processed item.2)
                 (dict_order (CorpusManager._storage (PipelineRun._corpus pipeline))) |}).
Proof.
  intros Hin Horder Hok. rewrite run_in_unfold.
  rewrite (run_loop_bound _ _ _ Hin).
  - by rewrite (fold_setitem_fmap processed _ _ (Horder _)).
  - apply Forall_forall. intros [key article] Hitem. cbn.
    apply (Hok key). apply elem_of_map_to_list. by rewrite <- (Horder _).
Qed.

Lemma loaded_length (dir : list Z) (raw : list dirent) pairs :
  loaded dir raw = inr pairs → length pairs = length raw.
Proof.
  revert pairs. induction raw as [|file rest IH]; intros pairs; cbn.
  - by intros [= <-].
  - destruct (get_article_id_from_filepath _); [done|].
    destruct (from_raw _); [done|].
    destruct (loaded dir rest) as [|pairs']; [done|].
    intros [= <-]. cbn. by rewrite (IH pairs').
Qed.

(** What a constructor call that returns has done. *)
Lemma new_ok_inv (fs : filesystem) (path : list Z) (obj : CorpusManager.t) :
  CorpusManager.new fs path = (Ok tt, obj) →
  validation_outcome (fs path) = Ok tt ∧
  ∃ pairs,
    loaded path (Pathlib.glob fs path "*_raw.txt") = inr pairs ∧
    CorpusManager._storage obj = list_to_map (reverse pairs).
Proof.
  rewrite new_run. destruct (validation_outcome (fs path)) as [[]|e]; [|done].
  intros Hscan. split; [done|].
  destruct (loaded path (Pathlib.glob fs path "*_raw.txt")) as [what|pairs] eqn:El.
  - pose proof (eq_trans (eq_sym (f_equal fst Hscan))
                  (scan_loop_failure path _ (fresh path) what El)) as Heq.
    done.
  - pose proof (eq_trans (eq_sym Hscan)
                  (scan_loop_success path _ (fresh path) pairs El)) as Heq.
    injection Heq as ->.
    exists pairs. split; [done|]. cbn. by rewrite fold_setitem, (right_id_L ∅ (∪)).
Qed.

Lemma storage_empty_iff (pairs : list (Z * Article)) :
  list_to_map (M := gmap Z Article) (reverse pairs) = ∅ ↔ pairs = [].
Proof.
  split; [|by intros ->].
  destruct (reverse pairs) as [|[k a] rest] eqn:E.
  - intros _. apply (f_equal reverse) in E. by rewrite reverse_involutive in E.
  - cbn. intros Hm. by apply insert_non_empty in Hm.
Qed.

(** X20.  [main] raises what the construction of the corpus manager raises;
    when the construction returns, [main] returns normally if the dataset
    directory holds no raw file and raises NameError if it holds one. *)
Theorem main_outcome (fs : filesystem) dict_order :
  (∀ m, dict_order m ≡ₚ map_to_list m) →
  (main fs dict_order).1
  = match (CorpusManager.new fs ASSETS_PATH).1 with
    | Raise e => Raise e
    | Ok _ =>
        match Pathlib.glob fs ASSETS_PATH "*_raw.txt" with
        | [] => Ok tt
        | _ => Raise (NameError "split_by_sentence")
        end
    end.
Proof.
  intros Horder. unfold main.
  destruct (CorpusManager.new fs ASSETS_PATH) as [[[]|e] obj] eqn:Enew; [|done].
  rewrite (run_outcome _ _ Horder). cbn [fst PipelineRun.__init__ PipelineRun._corpus].
  apply new_ok_inv in Enew as (_ & pairs & Hl & Hst).
  apply loaded_length in Hl. rewrite Hst.
  destruct (Pathlib.glob fs ASSETS_PATH "*_raw.txt") as [|file raw].
  - destruct pairs; [|done]. by rewrite decide_True.
  - rewrite decide_False; [done|]. rewrite storage_empty_iff. by intros ->.
Qed.

(** X21.  Whatever the dataset, [main] never calls [to_cleaned], and the
    corpus manager the pipeline holds at the end is the one the constructor
    built: no article is changed and nothing is written. *)
Theorem main_never_writes (fs : filesystem) dict_order pipeline :
  (main fs dict_order).2 = Some pipeline →
  PipelineRun.to_cleaned_calls pipeline = [] ∧
  PipelineRun._corpus pipeline = (CorpusManager.new fs ASSETS_PATH).2.
Proof.
  unfold main.
  destruct (CorpusManager.new fs ASSETS_PATH) as [[[]|e] obj]; [|done].
  unfold PipelineRun.run.
  rewrite run_in_unfold, (run_loop_unbound _ _ _ module_globals_unbound).
  cbn. by intros [= <-].
Qed.

End run_more.

(** ** The mapping of a loaded corpus *)

Section storage_more.
Context {U : UnicodeData} {C : CoreUtils}.

Lemma loaded_perm (dir : list Z) (raw raw' : list dirent) :
  raw ≡ₚ raw' →
  match loaded dir raw, loaded dir raw' with
  | inr pairs, inr pairs' => pairs ≡ₚ pairs'
  | inl _, inl _ => True
  | _, _ => False
  end.
Proof.
  induction 1 as [|x l l' _ IH|x y l|l l' l'' _ IH1 _ IH2]; cbn.
  - done.
  - destruct (get_article_id_from_filepath _); [done|].
    destruct (from_raw _); [done|].
    destruct (loaded dir l), (loaded dir l'); try done. by constructor.
  - destruct (get_article_id_from_filepath (Pathlib.joinpath dir (d_name x))),
             (from_raw (Pathlib.joinpath dir (d_name x))),
             (get_article_id_from_filepath (Pathlib.joinpath dir (d_name y))),
             (from_raw (Pathlib.joinpath dir (d_name y))),
             (loaded dir l); try done.
    apply perm_swap.
  - destruct (loaded dir l), (loaded dir l'), (loaded dir l''); try done. by etrans.
Qed.

(** X22.  When the construction has read the raw files and the collaborator
    gave them pairwise distinct IDs, [get_articles()] has exactly these IDs
    as keys and as many articles as there are raw files. *)
Theorem loaded_corpus_keys fs path pairs :
  (CorpusManager._validate_dataset fs (fresh path)).1 = Ok tt →
  loaded path (Pathlib.glob fs path "*_raw.txt") = inr pairs →
  NoDup pairs.*1 →
  dom (CorpusManager._storage (CorpusManager.new fs path).2) = list_to_set pairs.*1 ∧
  size (CorpusManager._storage (CorpusManager.new fs path).2)
  = length (Pathlib.glob fs path "*_raw.txt").
Proof.
  rewrite validate_dataset_run. cbn [fst fresh CorpusManager.path_to_data].
  intros Hok Hloaded Hnodup. rewrite new_run, Hok, scan_dataset_unfold.
  cbn [fresh CorpusManager.path_to_data].
  rewrite (scan_loop_success _ _ _ _ Hloaded). cbn [snd CorpusManager._storage].
  rewrite fold_setitem. cbn [fresh CorpusManager._storage]. rewrite (right_id_L ∅ (∪)).
  assert (Hrev : NoDup (reverse pairs).*1).
  { by rewrite fmap_reverse, reverse_Permutation. }
  split.
  - rewrite dom_list_to_map_L, fmap_reverse. apply set_eq. intros k.
    by rewrite !elem_of_list_to_set, elem_of_reverse.
  - rewrite (map_size_list_to_map _ Hrev), length_reverse.
    by apply (loaded_length path).
Qed.

(** X23.  When [_validate_dataset] returns normally on a listing,
    [get_article_id_from_filepath] and [from_raw] return for every raw file
    of it, and the IDs they give are pairwise distinct, then under every
    other order in which the directory lists its entries the construction
    returns normally too and builds the same mapping. *)
Theorem loaded_corpus_order_independent fs fs' path pairs :
  same_listing (fs path) (fs' path) →
  (CorpusManager._validate_dataset fs (fresh path)).1 = Ok tt →
  loaded path (Pathlib.glob fs path "*_raw.txt") = inr pairs →
  NoDup pairs.*1 →
  (CorpusManager.new fs' path).1 = Ok tt ∧
  CorpusManager._storage (CorpusManager.new fs' path).2
  = CorpusManager._storage (CorpusManager.new fs path).2.
Proof.
  rewrite validate_dataset_run. cbn [fst fresh CorpusManager.path_to_data].
  intros Hsame Hok Hloaded Hnodup.
  assert (Hglob : Pathlib.glob fs path "*_raw.txt" ≡ₚ Pathlib.glob fs' path "*_raw.txt").
  { rewrite !glob_raw_unfold. destruct Hsame as [| |d d' Hp]; [done..|]. by rewrite Hp. }
  pose proof (loaded_perm path _ _ Hglob) as Hperm. rewrite Hloaded in Hperm.
  destruct (loaded path (Pathlib.glob fs' path "*_raw.txt")) as [|pairs'] eqn:Hloaded';
    [done|].
  rewrite !new_run, (validation_outcome_ok_perm _ _ Hsame Hok), Hok, !scan_dataset_unfold.
  cbn [fresh CorpusManager.path_to_data].
  rewrite (scan_loop_success _ _ _ _ Hloaded), (scan_loop_success _ _ _ _ Hloaded').
  cbn. split; [done|]. rewrite !fold_setitem. f_equal.
  apply list_to_map_proper.
  - by rewrite fmap_reverse, reverse_Permutation, <- Hperm.
  - by rewrite !reverse_Permutation.
Qed.

End storage_more.
(** * The theorems at concrete inputs *)




Lemma construction_raises_ValueError_witness :
  (@CorpusManager.new ascii_only stand_in
     (directory [("abc_raw.txt", 5)]%string) (lit "data")).1
  = Raise ValueError
  ∧ (@CorpusManager.new ascii_only stand_in
       (directory [("_raw.txt", 5)]%string) (lit "data")).1
    ≠ Raise InconsistentDatasetError.
Proof.
  pose proof (@construction_raises_ValueError ascii_only stand_in) as [Hgen Hex].
  split.
  - apply Hgen.
    + intros file Hin. apply list_elem_of_singleton in Hin. rewrite Hin.
      exists 5. split; [reflexivity | lia].
    + exists {| d_name := lit "abc_raw.txt"; d_stat := inr 5 |}, 3%nat.
      split; [apply list_elem_of_singleton|split]; reflexivity.
  - apply (Hex "_raw.txt"%string 5 (lit "data")).
    + rewrite !elem_of_cons. right. left. reflexivity.
    + lia.
Defined.

Lemma get_cleaned_sentence_spec_witness :
  @ConlluSentence.get_cleaned_sentence ascii_only
    (ConlluSentence.__init__ 0 (lit "Wow! Really?")
       [ConlluToken.__init__ (lit "Wow!"); ConlluToken.__init__ (lit "Really?")])
  = Py.join (lit " ") [lit "wow"; lit "really"].
Proof.
  apply (proj1 (proj2 (proj2 (@get_cleaned_sentence_spec ascii_only
           (ConlluSentence.__init__ 0 (lit "Wow! Really?")
              [ConlluToken.__init__ (lit "Wow!"); ConlluToken.__init__ (lit "Really?")]))))).
  repeat constructor; intros c Hc; injection Hc as <-; reflexivity.
Defined.

Lemma validated_ids_are_distinct_and_bounded_witness :
  ∃ ids,
    Forall2 (λ file i, @CorpusManager.id_of_name ascii_only (d_name file) = Ok i)
      (Pathlib.glob (directory [("2_raw.txt", 3); ("notes.md", 0); ("1_raw.txt", 4)]%string)
                    (lit "data") "*_raw.txt") ids ∧
    NoDup ids ∧
    Forall (λ i, 1 ≤ i ≤ 2) ids.
Proof.
  apply (@validated_ids_are_distinct_and_bounded ascii_only stand_in
           (directory [("2_raw.txt", 3); ("notes.md", 0); ("1_raw.txt", 4)]%string)
           (fresh (lit "data"))).
  reflexivity.
Defined.

Lemma validate_dataset_order_independent_witness :
  @CorpusManager._validate_dataset ascii_only stand_in
    (directory [("1_raw.txt", 4); ("x_raw.txt", 3)]%string) (fresh (lit "data"))
  = @CorpusManager._validate_dataset ascii_only stand_in
      (directory [("x_raw.txt", 3); ("1_raw.txt", 4)]%string) (fresh (lit "data")).
Proof.
  refine (proj1 (@validate_dataset_order_independent ascii_only stand_in
                   (directory [("x_raw.txt", 3); ("1_raw.txt", 4)]%string)
                   (directory [("1_raw.txt", 4); ("x_raw.txt", 3)]%string)
                   (fresh (lit "data")) _) _).
  - apply same_dir. apply perm_swap.
  - apply directory_readable.
Defined.


Lemma construction_loads_every_raw_file_witness :
  ∃ obj,
    @CorpusManager.new ascii_only stand_in
      (directory [("2_raw.txt", 3); ("1_raw.txt", 4)]%string) (lit "d") = (Ok tt, obj) ∧
    CorpusManager.from_raw_calls obj = [lit "d/2_raw.txt"; lit "d/1_raw.txt"] ∧
    CorpusManager.get_articles obj
    = (Ok (list_to_map (reverse [(11, lit "d/2_raw.txt"); (11, lit "d/1_raw.txt")])), obj).
Proof.
  apply (@construction_loads_every_raw_file ascii_only stand_in
           (directory [("2_raw.txt", 3); ("1_raw.txt", 4)]%string) (lit "d")).
  - reflexivity.
  - reflexivity.
Defined.

Lemma construction_propagates_collaborator_failure_witness :
  (@CorpusManager.new ascii_only unreadable
     (directory [("1_raw.txt", 4)]%string) (lit "data")).1
  = Raise (Other "OSError").
Proof.
  apply (@construction_propagates_collaborator_failure ascii_only unreadable).
  - reflexivity.
  - reflexivity.
Defined.

Lemma raw_file_id_is_int_of_stem_witness :
  ∃ stem rest,
    lit "12_final_raw.txt" = stem ++ 95 :: rest ∧ (95 ∉ stem) ∧
    Py.index 95 (lit "12_final_raw.txt") = Ok (length stem) ∧
    @CorpusManager.id_of_name ascii_only (lit "12_final_raw.txt")
    = @Py.int ascii_only stem.
Proof.
  apply (@raw_file_id_is_int_of_stem ascii_only (lit "12_final_raw.txt")).
  reflexivity.
Defined.

Lemma id_of_decimal_name_witness :
  is_raw_name (map (λ d, 48 + d) [4; 2] ++ lit "_raw.txt") = true ∧
  @CorpusManager.id_of_name ascii_only (map (λ d, 48 + d) [4; 2] ++ lit "_raw.txt")
  = Ok (of_digits [4; 2]) ∧
  @CorpusManager.id_of_name ascii_only (48 :: map (λ d, 48 + d) [4; 2] ++ lit "_raw.txt")
  = @CorpusManager.id_of_name ascii_only (map (λ d, 48 + d) [4; 2] ++ lit "_raw.txt").
Proof.
  apply (@id_of_decimal_name ascii_only [4; 2]).
  - discriminate.
  - repeat constructor; lia.
Defined.

Lemma get_cleaned_ascii_idempotent_witness :
  @ConlluToken.get_cleaned ascii_only
    (ConlluToken.__init__
       (@ConlluToken.get_cleaned ascii_only (ConlluToken.__init__ (lit "Hello, World!"))))
  = @ConlluToken.get_cleaned ascii_only (ConlluToken.__init__ (lit "Hello, World!"))
  ∧ Forall (λ c, ¬ 65 ≤ c ≤ 90)
      (@ConlluToken.get_cleaned ascii_only (ConlluToken.__init__ (lit "Hello, World!"))).
Proof.
  apply (@get_cleaned_ascii_idempotent ascii_only (ConlluToken.__init__ (lit "Hello, World!"))).
  reflexivity.
Defined.

Lemma get_cleaned_ascii_app_witness :
  @ConlluToken.get_cleaned ascii_only (ConlluToken.__init__ (lit "Wow! " ++ lit "Really?"))
  = @ConlluToken.get_cleaned ascii_only (ConlluToken.__init__ (lit "Wow! "))
    ++ @ConlluToken.get_cleaned ascii_only (ConlluToken.__init__ (lit "Really?")).
Proof.
  apply (@get_cleaned_ascii_app ascii_only); reflexivity.
Defined.

Lemma cleaned_sentence_of_split_tokens_witness :
  @ConlluSentence.get_cleaned_sentence ascii_only
    (ConlluSentence.__init__ 0 (lit " Cats  run. - Dogs sleep! ")
       (map (λ word, ConlluToken.__init__ (@Py.strip ascii_only word))
            (@Py.split ascii_only (lit " Cats  run. - Dogs sleep! "))))
  = Py.join (lit " ") (@Py.split ascii_only (@clean ascii_only (lit " Cats  run. - Dogs sleep! "))).
Proof.
  apply (@cleaned_sentence_of_split_tokens ascii_only 0 (lit " Cats  run. - Dogs sleep! ")).
  reflexivity.
Defined.

Lemma process_wraps_segments_witness :
  ∃ sentences,
    @MorphologicalAnalysisPipeline._process_in ascii_only stand_in
      ("split_by_sentence"%string :: module_globals) (lit "Cats run.") = Ok sentences ∧
    length sentences = length (@split_by_sentence stand_in (lit "Cats run.")) ∧
    ∀ (i : nat) s, sentences !! i = Some s →
      ConlluSentence._position s = Z.of_nat i ∧
      @split_by_sentence stand_in (lit "Cats run.") !! i = Some (ConlluSentence._text s) ∧
      map ConlluToken._text (ConlluSentence._tokens s)
      = @Py.split ascii_only (ConlluSentence._text s).
Proof.
  apply (@process_wraps_segments ascii_only stand_in).
  rewrite elem_of_cons. left. reflexivity.
Defined.

Lemma process_tokens_keep_text_witness :
  Forall (λ s,
      Forall (λ token, ConlluToken._text token ≠ [] ∧
                       Forall (λ c, @Py.isspace ascii_only c = false) (ConlluToken._text token))
             (ConlluSentence._tokens s) ∧
      concat (map ConlluToken._text (ConlluSentence._tokens s))
      = filter (λ c, @Py.isspace ascii_only c = false) (ConlluSentence._text s))
    [ConlluSentence.__init__ 0 (lit "Cats run.")
       [ConlluToken.__init__ (lit "Cats"); ConlluToken.__init__ (lit "run.")]].
Proof.
  apply (@process_tokens_keep_text ascii_only stand_in
           ("split_by_sentence"%string :: module_globals) (lit "Cats run.")).
  - rewrite elem_of_cons. left. reflexivity.
  - reflexivity.
Defined.

Lemma run_fails_on_first_article_witness :
  (@PipelineRun.run ascii_only stand_in stand_in_io map_to_list
     (PipelineRun.__init__
        (@CorpusManager.new ascii_only stand_in
           (directory [("1_raw.txt", 4)]%string) (lit "data")).2)).1
  = Raise (NameError "split_by_sentence").
Proof.
  rewrite (@run_fails_on_first_article ascii_only stand_in stand_in_io map_to_list).
  - reflexivity.
  - intros m. reflexivity.
Defined.

Lemma run_in_bound_processes_every_article_witness :
  (@PipelineRun.run_in ascii_only stand_in stand_in_io
     ("split_by_sentence"%string :: module_globals) map_to_list
     (PipelineRun.__init__
        (@CorpusManager.new ascii_only stand_in
           (directory [("1_raw.txt", 4)]%string) (lit "data")).2)).1
  = Ok tt.
Proof.
  rewrite (@run_in_bound_processes_every_article ascii_only stand_in stand_in_io
             ("split_by_sentence"%string :: module_globals) map_to_list).
  - reflexivity.
  - rewrite elem_of_cons. left. reflexivity.
  - intros m. reflexivity.
  - intros key article _. reflexivity.
Defined.

Lemma main_outcome_witness :
  (@main ascii_only stand_in stand_in_io
     (directory [("1_raw.txt", 4)]%string) map_to_list).1
  = Raise (NameError "split_by_sentence").
Proof.
  rewrite (@main_outcome ascii_only stand_in stand_in_io
             (directory [("1_raw.txt", 4)]%string) map_to_list).
  - reflexivity.
  - intros m. reflexivity.
Defined.

Lemma main_never_writes_witness :
  PipelineRun.to_cleaned_calls
    (@PipelineRun.__init__ stand_in
       (@CorpusManager.new ascii_only stand_in
          (directory [("1_raw.txt", 4)]%string) (lit "assets")).2) = [] ∧
  PipelineRun._corpus
    (@PipelineRun.__init__ stand_in
       (@CorpusManager.new ascii_only stand_in
          (directory [("1_raw.txt", 4)]%string) (lit "assets")).2)
  = (@CorpusManager.new ascii_only stand_in
       (directory [("1_raw.txt", 4)]%string) (@ASSETS_PATH stand_in stand_in_io)).2.
Proof.
  apply (@main_never_writes ascii_only stand_in stand_in_io
           (directory [("1_raw.txt", 4)]%string) map_to_list).
  reflexivity.
Defined.

Lemma loaded_corpus_keys_witness :
  dom (CorpusManager._storage
         (@CorpusManager.new ascii_only stand_in
            (directory [("02_raw.txt", 3); ("1_raw.txt", 4)]%string) (lit "d")).2)
  = list_to_set [12; 11] ∧
  size (CorpusManager._storage
          (@CorpusManager.new ascii_only stand_in
             (directory [("02_raw.txt", 3); ("1_raw.txt", 4)]%string) (lit "d")).2)
  = 2%nat.
Proof.
  apply (@loaded_corpus_keys ascii_only stand_in
           (directory [("02_raw.txt", 3); ("1_raw.txt", 4)]%string) (lit "d")
           [(12, lit "d/02_raw.txt"); (11, lit "d/1_raw.txt")]).
  - reflexivity.
  - reflexivity.
  - apply (bool_decide_unpack _). vm_compute. exact I.
Defined.

Lemma loaded_corpus_order_independent_witness :
  (@CorpusManager.new ascii_only stand_in
     (directory [("1_raw.txt", 4); ("02_raw.txt", 3)]%string) (lit "d")).1 = Ok tt ∧
  CorpusManager._storage
    (@CorpusManager.new ascii_only stand_in
       (directory [("1_raw.txt", 4); ("02_raw.txt", 3)]%string) (lit "d")).2
  = CorpusManager._storage
      (@CorpusManager.new ascii_only stand_in
         (directory [("02_raw.txt", 3); ("1_raw.txt", 4)]%string) (lit "d")).2.
Proof.
  apply (@loaded_corpus_order_independent ascii_only stand_in
           (directory [("02_raw.txt", 3); ("1_raw.txt", 4)]%string)
           (directory [("1_raw.txt", 4); ("02_raw.txt", 3)]%string) (lit "d")
           [(12, lit "d/02_raw.txt"); (11, lit "d/1_raw.txt")]).
  - apply same_dir. apply perm_swap.
  - reflexivity.
  - reflexivity.
  - apply (bool_decide_unpack _). vm_compute. exact I.
Defined.
